(** * canvas: a terminal canvas over a 256-colour terminal

    A shallow embedding of [canvas.go] (package [canvas]) and the
    properties of its cursor / colour / style cache and of the escape
    sequences it appends to the pending buffer.

    Conventions of the embedding:
    - Go's [int] is the 64-bit two's-complement integer; it is carried as
      a [Z] and every addition and subtraction of the source goes through
      [wrap], so overflow is visible;
    - a Go [string] and the contents of a [bytes.Buffer] are sequences of
      bytes, carried as [string] (one [ascii] per byte);
    - a method with pointer receiver [*Canvas] becomes a function from the
      canvas before the call to the canvas after it (plus the returned
      error, if any); a call that may panic returns an [option];
    - the mutex only matters under concurrency; the [...Safe] methods are
      the plain ones between [Lock] and [Unlock]. *)

From Stdlib Require Import ZArith List Bool Lia.
From Stdlib Require Import Strings.Ascii Strings.String Numbers.DecimalString.
From Stdlib Require Import Numbers.DecimalPos Numbers.DecimalZ.
Import ListNotations.

Local Open Scope string_scope.
Local Open Scope Z_scope.

(** ** Go's [int] *)

Definition min_int : Z := - 2 ^ 63.
Definition max_int : Z := 2 ^ 63 - 1.

(** Two's-complement reduction of a mathematical integer to [int]. *)
Definition wrap (z : Z) : Z := (z + 2 ^ 63) mod 2 ^ 64 - 2 ^ 63.

Definition is_int (z : Z) : Prop := min_int <= z <= max_int.

Definition int_add (a b : Z) : Z := wrap (a + b).
Definition int_sub (a b : Z) : Z := wrap (a - b).

(** ** Byte strings *)

Definition byte_val (a : ascii) : Z := Z.of_N (N_of_ascii a).

Definition byte_of (z : Z) : ascii := ascii_of_N (Z.to_N z).

(** [len(s)] *)
Definition len (s : string) : Z := Z.of_nat (String.length s).

(** The first [n] bytes of [s]: the slice [s[0:n]] for [0 <= n <= len(s)]. *)
Fixpoint take (n : nat) (s : string) : string :=
  match n, s with
  | S k, String a rest => String a (take k rest)
  | _, _ => EmptyString
  end.

(** [s[0:r]]; Go panics when the bound is negative or past the end. *)
Definition slice_to (s : string) (r : Z) : option string :=
  if (r <? 0) || (len s <? r) then None else Some (take (Z.to_nat r) s).

(** [strconv.Itoa] *)
Definition Itoa (n : Z) : string := NilZero.string_of_int (Z.to_int n).

(** ** [unicode/utf8] *)

Module utf8.

Definition RuneSelf : Z := 128.
Definition locb : Z := 128.
Definition hicb : Z := 191.

(** Entries of the table [first]: the low three bits are the length of
    the encoding, the high four bits select the accepted range of the
    second byte. *)
Definition xx : Z := 241.
Definition as_ : Z := 240.
Definition s1 : Z := 2.
Definition s2 : Z := 19.
Definition s3 : Z := 3.
Definition s4 : Z := 35.
Definition s5 : Z := 52.
Definition s6 : Z := 4.
Definition s7 : Z := 68.

Definition first (c : Z) : Z :=
  if c <? 128 then as_
  else if c <? 194 then xx
  else if c <? 224 then s1
  else if c =? 224 then s2
  else if c <? 237 then s3
  else if c =? 237 then s4
  else if c <? 240 then s3
  else if c =? 240 then s5
  else if c <? 244 then s6
  else if c =? 244 then s7
  else xx.

(** [acceptRanges]: bounds of the second byte. *)
Definition acceptRanges (k : Z) : Z * Z :=
  if k =? 1 then (160, 191)
  else if k =? 2 then (128, 159)
  else if k =? 3 then (144, 191)
  else if k =? 4 then (128, 143)
  else (locb, hicb).

Definition outside (c lo hi : Z) : bool := (c <? lo) || (hi <? c).

(** Number of bytes the scanning loop of [RuneCountInString] steps over
    when a rune starts with byte [c0] and is followed by [rest]; an
    invalid or short encoding is one byte wide. *)
Definition step_size (c0 : ascii) (rest : string) : nat :=
  let c := byte_val c0 in
  if c <? RuneSelf then 1%nat
  else
    let x := first c in
    if x =? xx then 1%nat
    else
      let size := Z.land x 7 in
      if 1 + len rest <? size then 1%nat
      else
        let '(lo, hi) := acceptRanges (Z.shiftr x 4) in
        match rest with
        | EmptyString => 1%nat
        | String b1 rest1 =>
            if outside (byte_val b1) lo hi then 1%nat
            else if size =? 2 then 2%nat
            else
              match rest1 with
              | EmptyString => 1%nat
              | String b2 rest2 =>
                  if outside (byte_val b2) locb hicb then 1%nat
                  else if size =? 3 then 3%nat
                  else
                    match rest2 with
                    | EmptyString => 1%nat
                    | String b3 _ =>
                        if outside (byte_val b3) locb hicb then 1%nat
                        else 4%nat
                    end
              end
        end.

(** The loop of [RuneCountInString]: [skip] bytes still belong to the
    rune that was counted last. *)
Fixpoint count_from (skip : nat) (s : string) : nat :=
  match s with
  | EmptyString => 0%nat
  | String c rest =>
      match skip with
      | S k => count_from k rest
      | O => S (count_from (step_size c rest - 1) rest)
      end
  end.

Definition RuneCountInString (s : string) : Z := Z.of_nat (count_from 0 s).

Definition RuneError : Z := 65533.

(** [string(r)] for a rune [r], i.e. [utf8.AppendRune]: the UTF-8
    encoding, with U+FFFD for surrogates and values out of range. *)
Definition encode_valid (r : Z) : string :=
  if r <=? 127 then String (byte_of r) ""
  else if r <=? 2047 then
    String (byte_of (Z.lor 192 (Z.shiftr r 6)))
      (String (byte_of (Z.lor 128 (Z.land r 63))) "")
  else if r <=? 65535 then
    String (byte_of (Z.lor 224 (Z.shiftr r 12)))
      (String (byte_of (Z.lor 128 (Z.land (Z.shiftr r 6) 63)))
         (String (byte_of (Z.lor 128 (Z.land r 63))) ""))
  else
    String (byte_of (Z.lor 240 (Z.shiftr r 18)))
      (String (byte_of (Z.lor 128 (Z.land (Z.shiftr r 12) 63)))
         (String (byte_of (Z.lor 128 (Z.land (Z.shiftr r 6) 63)))
            (String (byte_of (Z.lor 128 (Z.land r 63))) ""))).

Definition string_of_rune (r : Z) : string :=
  if (r <? 0) || (1114111 <? r) || ((55296 <=? r) && (r <=? 57343))
  then encode_valid RuneError
  else encode_valid r.

End utf8.

(** ** [image/color] *)

(** The interface [color.Color]: a value that can be compared with [==]
    (every colour type of the standard library is comparable) and that
    answers [RGBA()] with four [uint32] channels. *)
Class GoColor (T : Type) : Type := {
  color_eq_dec : forall a b : T, {a = b} + {a <> b};
  RGBA_of : T -> Z * Z * Z * Z
}.

(** [color.RGBA], the struct of four [uint8] fields, and its method
    [RGBA()]: each channel is widened to 16 bits by [r |= r << 8]. *)
Record color_RGBA : Type := mkRGBA { R8 : Z; G8 : Z; B8 : Z; A8 : Z }.

Definition color_RGBA_eq_dec (a b : color_RGBA) : {a = b} + {a <> b}.
Proof. decide equality; apply Z.eq_dec. Defined.

Definition widen (v : Z) : Z := Z.lor v (Z.shiftl v 8).

#[export] Instance color_RGBA_GoColor : GoColor color_RGBA := {|
  color_eq_dec := color_RGBA_eq_dec;
  RGBA_of := fun c => (widen (R8 c), widen (G8 c), widen (B8 c), widen (A8 c))
|}.

Definition max_uint32 : Z := 2 ^ 32 - 1.
Definition wrap32 (z : Z) : Z := z mod 2 ^ 32.

(** The palette search behind [Colors.Index(clr.RGBA)].  The table
    [Colors] and its method [Index] are declared in a file of the package
    that is not part of the sources at hand; [setBgFg] only calls them. *)
Module Palette.

(** Modelled from the spec: the distance in colour space used by the
    missing [Index], taken as the one of [image/color]: the sum over the
    four channels of the squared difference divided by four, in [uint32]
    arithmetic. *)
Definition sqDiff (a b : Z) : Z :=
  let d := wrap32 (a - b) in Z.shiftr (wrap32 (d * d)) 2.

Definition dist (c v : Z * Z * Z * Z) : Z :=
  let '(cr, cg, cb, ca) := c in
  let '(vr, vg, vb, va) := v in
  wrap32 (wrap32 (wrap32 (sqDiff cr vr + sqDiff cg vg) + sqDiff cb vb)
          + sqDiff ca va).

Section Search.
Context {T : Type} `{GoColor T}.

(** Modelled from the spec: the loop of [Index], which is missing from
    the sources.  The spec asks for the entry of minimum distance, the
    lowest index winning a tie; the scan is the one of a [color.Palette]:
    left to right, keeping the first strictly better entry and stopping
    at an exact match. *)
Fixpoint scan (c : Z * Z * Z * Z) (p : list T) (i ret bestSum : Z) : Z :=
  match p with
  | [] => ret
  | v :: p' =>
      let sum := dist c (RGBA_of v) in
      if sum <? bestSum then
        if sum =? 0 then i else scan c p' (i + 1) i sum
      else scan c p' (i + 1) ret bestSum
  end.

(** Modelled from the spec: the method [Index] of the table [Colors],
    missing from the sources; the palette index of the entry closest to
    the colour [c]. *)
Definition Index (p : list T) (c : T) : Z :=
  scan (RGBA_of c) p 0 0 max_uint32.
End Search.

End Palette.

(** The palette of xterm: sixteen system colours, the 6x6x6 cube and the
    grey ramp; a sample table of 256 entries. *)
Definition opaque (r g b : Z) : color_RGBA := mkRGBA r g b 255.

Definition system16 : list color_RGBA :=
  [ opaque 0 0 0; opaque 128 0 0; opaque 0 128 0; opaque 128 128 0;
    opaque 0 0 128; opaque 128 0 128; opaque 0 128 128; opaque 192 192 192;
    opaque 128 128 128; opaque 255 0 0; opaque 0 255 0; opaque 255 255 0;
    opaque 0 0 255; opaque 255 0 255; opaque 0 255 255; opaque 255 255 255 ].

Definition cube_level (k : nat) : Z :=
  match k with O => 0 | _ => 55 + 40 * Z.of_nat k end.

Definition cube216 : list color_RGBA :=
  flat_map (fun r => flat_map (fun g => map (fun b =>
    opaque (cube_level r) (cube_level g) (cube_level b)) (seq 0 6)) (seq 0 6))
    (seq 0 6).

Definition grey24 : list color_RGBA :=
  map (fun k => let v := 8 + 10 * Z.of_nat k in opaque v v v) (seq 0 24).

Definition xterm256 : list color_RGBA := system16 ++ cube216 ++ grey24.

(** The bullet U+2022, three bytes in UTF-8. *)
Definition bullet : string :=
  String (byte_of 226) (String (byte_of 128) (String (byte_of 162) "")).


(** Truncation on whole characters, as the specification words it: the
    first [n] runes of [s], [skip] bytes still belonging to the rune kept
    last. *)
Fixpoint runes_from (skip n : nat) (s : string) : string :=
  match s with
  | EmptyString => EmptyString
  | String c rest =>
      match skip with
      | S k => String c (runes_from k n rest)
      | O =>
          match n with
          | O => EmptyString
          | S m => String c (runes_from (utf8.step_size c rest - 1) m rest)
          end
      end
  end.

Definition take_runes (n : nat) (s : string) : string := runes_from 0 n s.

(** ** Plain text *)

(** Every byte is below [utf8.RuneSelf]. *)
Fixpoint is_ascii (s : string) : bool :=
  match s with
  | EmptyString => true
  | String a rest => (byte_val a <? 128) && is_ascii rest
  end.

(** [n] blank cells. *)
Fixpoint blanks (n : nat) : string :=
  match n with
  | O => EmptyString
  | S k => String " " (blanks k)
  end.

(** A test on the [n] integers from [lo] upwards. *)
Fixpoint all_from (f : Z -> bool) (n : nat) (lo : Z) : bool :=
  match n with
  | O => true
  | S k => if f lo then all_from f k (lo + 1) else false
  end.

(** ** Reading back what was printed *)

(** The integer a decimal string denotes, if it is one. *)
Definition decimal_of (s : string) : option Z :=
  option_map Z.of_int (NilZero.int_of_string s).

(** The text whose characters are the runes [rs]: [string(r)] for each. *)
Fixpoint encode_runes (rs : list Z) : string :=
  match rs with
  | [] => EmptyString
  | r :: rs' => utf8.string_of_rune r ++ encode_runes rs'
  end.

(** A byte sequence that the scanning loop takes as exactly one rune
    whatever follows it: one ASCII byte, or a lead byte with as many
    bytes after it as its table entry announces, all of them accepted. *)
Definition complete_encoding (e : string) : bool :=
  match e with
  | EmptyString => false
  | String c rest =>
      if byte_val c <? 128 then
        match rest with EmptyString => true | String _ _ => false end
      else
        match rest with
        | EmptyString => false
        | String _ _ =>
            (Z.land (utf8.first (byte_val c)) 7 =? 1 + len rest)
            && Nat.eqb (utf8.step_size c rest) (S (String.length rest))
        end
  end.

(** ** Formats without operands *)

Definition is_percent (a : ascii) : bool := Ascii.eqb a "%"%char.

Fixpoint has_percent (s : string) : bool :=
  match s with
  | EmptyString => false
  | String a rest => is_percent a || has_percent rest
  end.

(** What [fmt.Printf] prints for a format made of text, [%%] and plain
    one-letter verbs when it is given no operand: the text, a percent
    sign, and [%!v(MISSING)] for a verb [v]; [%!(NOVERB)] for a percent
    sign that ends the format. *)
Fixpoint Printf_plain (format : string) : string :=
  match format with
  | EmptyString => EmptyString
  | String a rest =>
      if is_percent a then
        match rest with
        | EmptyString => "%!(NOVERB)"
        | String v rest' =>
            if is_percent v then String v (Printf_plain rest')
            else "%!" ++ String v ("(MISSING)" ++ Printf_plain rest')
        end
      else String a (Printf_plain rest)
  end.

(** ** The canvas *)

Inductive error : Type := ErrorOutOfBounds | ErrorTruncated.

Definition StyleNoChange : Z := 1.
Definition StyleNormal : Z := 2.
Definition StyleBold : Z := 4.
Definition StyleDim : Z := 8.
Definition StyleUnderlined : Z := 16.
Definition StyleBlink : Z := 32.
Definition StyleInverted : Z := 64.
Definition StyleHidden : Z := 128.

Definition escape : string := String (byte_of 27) "".
Definition newline : string := String (byte_of 10) "".

(** Sequencing of calls that may panic. *)
Definition bind {A B : Type} (m : option A) (f : A -> option B) : option B :=
  match m with Some a => f a | None => None end.

Notation "m >>= f" := (bind m f) (at level 50, left associativity).

Section CanvasModel.

Context {T : Type} {GC : GoColor T}.

(** The package-level table [Colors]; its declaration is not part of the
    sources at hand, so it is a parameter. *)
Variable Colors : list T.

(** [fmt.Printf(format)] called with a format and no operands: the
    bytes that reach standard output.  The two facts used about it are
    those of the documentation of package [fmt]: text without a percent
    sign is copied as it is, and a verb that finds no operand prints as
    [%!d(MISSING)]. *)
Variable fmt_Printf : string -> string.

Definition Printf_verbatim : Prop :=
  forall s, has_percent s = false -> fmt_Printf s = s.

Definition Printf_missing : Prop :=
  forall s, has_percent s = false ->
            fmt_Printf (s ++ "%d") = s ++ "%!d(MISSING)".

Record Color : Type := mkColor {
  RGBA : option T;
  Term256 : Z;
  isDefault : bool
}.

Definition Color_eq_dec (a b : Color) : {a = b} + {a <> b}.
Proof.
  decide equality.
  - apply bool_dec.
  - apply Z.eq_dec.
  - decide equality. apply color_eq_dec.
Defined.

Definition ColorDefault : Color := mkColor None 0 true.
Definition ColorBlack : Color := mkColor None 0 false.
Definition ColorRed : Color := mkColor None 1 false.
Definition ColorGreen : Color := mkColor None 2 false.
Definition ColorYellow : Color := mkColor None 3 false.
Definition ColorBlue : Color := mkColor None 4 false.
Definition ColorMagenta : Color := mkColor None 5 false.
Definition ColorCyan : Color := mkColor None 6 false.
Definition ColorLightGray : Color := mkColor None 7 false.
Definition ColorDarkGray : Color := mkColor None 8 false.
Definition ColorLightRed : Color := mkColor None 9 false.
Definition ColorLightGreen : Color := mkColor None 10 false.
Definition ColorLightYellow : Color := mkColor None 11 false.
Definition ColorLightBlue : Color := mkColor None 12 false.
Definition ColorLightMagenta : Color := mkColor None 13 false.
Definition ColorLightCyan : Color := mkColor None 14 false.
Definition ColorWhite : Color := mkColor None 15 false.

Definition named_colors : list Color :=
  [ ColorBlack; ColorRed; ColorGreen; ColorYellow; ColorBlue; ColorMagenta;
    ColorCyan; ColorLightGray; ColorDarkGray; ColorLightRed;
    ColorLightGreen; ColorLightYellow; ColorLightBlue; ColorLightMagenta;
    ColorLightCyan; ColorWhite ].

(** The struct [Canvas].  [Logger] is either [nil] or a logger together
    with the messages it has printed so far; [stdout] is not a field of
    the struct: it lists, oldest first, what the canvas has printed to
    the terminal, one entry per call of [fmt.Printf]. *)
Record Canvas : Type := mkCanvas {
  Width : Z;
  Height : Z;
  Logger : option (list string);
  Background : Color;
  CursorOnEnd : bool;
  buf : string;
  x : Z;
  y : Z;
  fg : Color;
  bg : Color;
  style : Z;
  stdout : list string
}.

Definition set_Logger (c : Canvas) (l : option (list string)) : Canvas :=
  mkCanvas (Width c) (Height c) l (Background c) (CursorOnEnd c) (buf c)
           (x c) (y c) (fg c) (bg c) (style c) (stdout c).

Definition set_CursorOnEnd (c : Canvas) (b : bool) : Canvas :=
  mkCanvas (Width c) (Height c) (Logger c) (Background c) b (buf c)
           (x c) (y c) (fg c) (bg c) (style c) (stdout c).

Definition set_buf (c : Canvas) (b : string) : Canvas :=
  mkCanvas (Width c) (Height c) (Logger c) (Background c) (CursorOnEnd c) b
           (x c) (y c) (fg c) (bg c) (style c) (stdout c).

Definition set_xy (c : Canvas) (x' y' : Z) : Canvas :=
  mkCanvas (Width c) (Height c) (Logger c) (Background c) (CursorOnEnd c)
           (buf c) x' y' (fg c) (bg c) (style c) (stdout c).

Definition set_fg (c : Canvas) (clr : Color) : Canvas :=
  mkCanvas (Width c) (Height c) (Logger c) (Background c) (CursorOnEnd c)
           (buf c) (x c) (y c) clr (bg c) (style c) (stdout c).

Definition set_bg (c : Canvas) (clr : Color) : Canvas :=
  mkCanvas (Width c) (Height c) (Logger c) (Background c) (CursorOnEnd c)
           (buf c) (x c) (y c) (fg c) clr (style c) (stdout c).

Definition set_style (c : Canvas) (s : Z) : Canvas :=
  mkCanvas (Width c) (Height c) (Logger c) (Background c) (CursorOnEnd c)
           (buf c) (x c) (y c) (fg c) (bg c) s (stdout c).

Definition set_stdout (c : Canvas) (o : list string) : Canvas :=
  mkCanvas (Width c) (Height c) (Logger c) (Background c) (CursorOnEnd c)
           (buf c) (x c) (y c) (fg c) (bg c) (style c) o.

(** [c.buf.WriteString(s)] *)
Definition WriteString (c : Canvas) (s : string) : Canvas :=
  set_buf c (buf c ++ s).

(** [errorF]: the formatted message goes to the logger, if there is one. *)
Definition errorF (c : Canvas) (msg : string) : Canvas :=
  match Logger c with
  | None => c
  | Some printed => set_Logger c (Some (List.app printed ["[error] " ++ msg]))
  end.

Definition debugF (c : Canvas) (msg : string) : Canvas :=
  match Logger c with
  | None => c
  | Some printed => set_Logger c (Some (List.app printed ["[debug] " ++ msg]))
  end.

Definition setBgFg (c : Canvas) (clr : Color) (isbg : bool) : Canvas :=
  let op := if isbg then "4" else "3" in
  if isDefault clr then
    WriteString (WriteString (WriteString c (escape ++ "[")) op) "9m"
  else
    let x256Clr :=
      match RGBA clr with
      | Some v => Palette.Index Colors v
      | None => Term256 clr
      end in
    WriteString
      (WriteString
         (WriteString (WriteString (WriteString c (escape ++ "[")) op)
            "8;5;")
         (Itoa x256Clr))
      "m".

Definition SetBackground (c : Canvas) (clr : Color) : Canvas :=
  if Color_eq_dec (bg c) clr then c
  else set_bg (setBgFg c clr true) clr.

Definition SetForeground (c : Canvas) (clr : Color) : Canvas :=
  if Color_eq_dec (fg c) clr then c
  else set_fg (setBgFg c clr false) clr.

(** One [if style&bit != 0 { c.buf.WriteString(code) }]. *)
Definition style_bit (s bit : Z) (code : string) (c : Canvas) : Canvas :=
  if Z.land s bit =? 0 then c else WriteString c (escape ++ code).

Definition SetStyle (c : Canvas) (s : Z) : Canvas :=
  if style c =? s then c
  else
    let c := style_bit s StyleNormal "[0m" c in
    let c := style_bit s StyleBold "[1m" c in
    let c := style_bit s StyleDim "[2m" c in
    let c := style_bit s StyleUnderlined "[4m" c in
    let c := style_bit s StyleBlink "[5m" c in
    let c := style_bit s StyleInverted "[7m" c in
    let c := style_bit s StyleHidden "[8m" c in
    set_style c s.

(** The closures [write] and [move] of [Move]. *)
Definition write (c : Canvas) (num : Z) (op : string) : Canvas :=
  WriteString c (escape ++ "[" ++ Itoa num ++ op).

Definition move (c : Canvas) (curr given : Z) (forwardOp backwardOp : string)
  : Canvas :=
  if curr <? given then write c (int_sub given curr) forwardOp
  else if curr >? given then write c (int_sub curr given) backwardOp
  else c.

Definition Move (c : Canvas) (tx ty : Z) : Canvas * option error :=
  if (x c =? tx) && (y c =? ty) then (c, None)
  else if (tx >? int_sub (Width c) 1) || (tx <? 0)
          || (ty >? int_sub (Height c) 1) || (ty <? 0)
  then (errorF c ("out of bounds: (" ++ Itoa tx ++ "," ++ Itoa ty ++ ")"),
        Some ErrorOutOfBounds)
  else
    let c1 := move c (x c) tx "C" "D" in
    let c2 := move c1 (y c) ty "B" "A" in
    (set_xy c2 tx ty, None).

(** The first statement of [Write]: the text that will be appended, and
    the canvas after the diagnostic. *)
Definition Write_clip (c : Canvas) (text : string)
  : option (string * Canvas) :=
  let r := int_sub (Width c) (x c) in
  let l := utf8.RuneCountInString text in
  if l >? r then
    slice_to text r >>= fun t =>
    Some (t, errorF c ("string truncated: " ++ text))
  else Some (text, c).

Definition Write (c : Canvas) (text : string) : option Canvas :=
  Write_clip c text >>= fun '(text', c1) =>
  let c2 := WriteString c1 text' in
  let c3 := set_xy c2 (int_add (x c2) (utf8.RuneCountInString text')) (y c2) in
  Some (if x c3 >=? Width c3
        then fst (Move c3 (int_sub (Width c3) 1) (y c3))
        else c3).

(** The method [Set]; the name is a keyword here. *)
Definition Set_ (c : Canvas) (tx ty : Z) (char : Z) : option Canvas :=
  let '(c1, err) := Move c tx ty in
  match err with
  | None => Write c1 (utf8.string_of_rune char)
  | Some _ => Some c1
  end.

Definition WriteAt (c : Canvas) (tx ty : Z) (foreground background : Color)
           (sty : Z) (text : string) : option Canvas :=
  let '(c1, err) := Move c tx ty in
  match err with
  | Some _ => Some c1
  | None =>
      Write (SetBackground (SetForeground (SetStyle c1 sty) foreground)
               background) text
  end.

Definition Flush (c : Canvas) : Canvas :=
  let c1 := if CursorOnEnd c
            then fst (Move c (int_sub (Width c) 1) (int_sub (Height c) 1))
            else c in
  set_buf (set_stdout c1 (List.app (stdout c1) [fmt_Printf (buf c1)])) "".

(** [for i := 0; i < c.Width; i++ { c.Write(" ") }], [n] rounds. *)
Fixpoint write_blanks (n : nat) (c : Canvas) : option Canvas :=
  match n with
  | O => Some c
  | S k => Write c " " >>= write_blanks k
  end.

(** The outer loop of [Clear], [n] rows to go from row [i]. *)
Fixpoint clear_rows (n : nat) (i : Z) (c : Canvas) : option Canvas :=
  match n with
  | O => Some c
  | S k =>
      write_blanks (Z.to_nat (Width c)) c >>= fun c1 =>
      let c2 := if i <? int_sub (Height c1) 1
                then fst (Move c1 0 (int_add i 1))
                else c1 in
      clear_rows k (int_add i 1) c2
  end.

Definition Clear (c : Canvas) : option Canvas :=
  clear_rows (Z.to_nat (Height c)) 0 (fst (Move c 0 0)) >>= fun c1 =>
  Some (fst (Move c1 0 0)).

(** [for i := 0; i < c.Width; i++ { c.buf.WriteString(" ") }] *)
Fixpoint fill_blanks (n : nat) (c : Canvas) : Canvas :=
  match n with
  | O => c
  | S k => fill_blanks k (WriteString c " ")
  end.

(** The outer loop of [NewCanvas]. *)
Fixpoint fill_rows (n : nat) (i : Z) (background : Color) (c : Canvas)
  : Canvas :=
  match n with
  | O => c
  | S k =>
      let c1 := fill_blanks (Z.to_nat (Width c)) c in
      let c2 := if i <? int_sub (Height c1) 1
                then SetBackground
                       (WriteString (SetBackground c1 ColorDefault) newline)
                       background
                else c1 in
      fill_rows k (int_add i 1) background c2
  end.

(** The zero value of [Color] and the composite literal of [NewCanvas]. *)
Definition Color_zero : Color := mkColor None 0 false.

Definition Canvas_literal (width height : Z) (background : Color) : Canvas :=
  mkCanvas width height None background false "" 0 0 Color_zero Color_zero
           0 [].

(** [NewCanvas] up to and including [c.x, c.y = width, height-1]. *)
Definition NewCanvas_prefill (width height : Z) (background : Color)
  : Canvas :=
  let c := Canvas_literal width height background in
  let c := SetBackground c background in
  let c := SetStyle c StyleNormal in
  let c := fill_rows (Z.to_nat (Height c)) 0 background c in
  set_xy c width (int_sub height 1).

Definition NewCanvas (width height : Z) (background : Color) : Canvas :=
  Flush (fst (Move (NewCanvas_prefill width height background) 0 0)).

(** The guarded methods: the same call between [Lock] and [Unlock]. *)
Definition ClearSafe := Clear.
Definition SetBackgroundSafe := SetBackground.
Definition SetForegroundSafe := SetForeground.
Definition SetStyleSafe := SetStyle.
Definition SetSafe := Set_.
Definition MoveSafe := Move.
Definition WriteSafe := Write.
Definition WriteAtSafe := WriteAt.
Definition FlushSafe := Flush.

(** ** Vocabulary of the statements *)

Definition in_bounds (c : Canvas) (tx ty : Z) : Prop :=
  0 <= tx < Width c /\ 0 <= ty < Height c.

Definition cursor_in_bounds (c : Canvas) : Prop := in_bounds c (x c) (y c).

(** The dimensions are values of type [int]. *)
Definition int_dims (c : Canvas) : Prop :=
  is_int (Width c) /\ is_int (Height c).

(** A relative motion as the specification words it: nothing for a zero
    delta, otherwise one fragment whose repeat count is the absolute
    value of the delta and whose opcode gives the direction. *)
Definition relative_motion (curr given : Z) (forwardOp backwardOp : string)
  : string :=
  if given - curr =? 0 then ""
  else escape ++ "[" ++ Itoa (Z.abs (given - curr))
              ++ (if 0 <? given - curr then forwardOp else backwardOp).

(** The fragments [SetStyle] appends for a style word: the reset for
    Normal first, then one code per other bit, in the order of the
    source. *)
Definition style_code (s bit : Z) (code : string) : string :=
  if Z.land s bit =? 0 then "" else escape ++ code.

Definition style_fragments (s : Z) : string :=
  style_code s StyleNormal "[0m" ++ style_code s StyleBold "[1m"
  ++ style_code s StyleDim "[2m" ++ style_code s StyleUnderlined "[4m"
  ++ style_code s StyleBlink "[5m" ++ style_code s StyleInverted "[7m"
  ++ style_code s StyleHidden "[8m".

Definition attribute_bits : Z :=
  Z.lor StyleNormal (Z.lor StyleBold (Z.lor StyleDim (Z.lor StyleUnderlined
    (Z.lor StyleBlink (Z.lor StyleInverted StyleHidden))))).

(** The text [Write] appends and the canvas after its diagnostic. *)
Definition clipped (c : Canvas) (text : string) : string :=
  if utf8.RuneCountInString text >? Width c - x c
  then take (Z.to_nat (Width c - x c)) text
  else text.

Definition diagnosed (c : Canvas) (text : string) : Canvas :=
  if utf8.RuneCountInString text >? Width c - x c
  then errorF c ("string truncated: " ++ text)
  else c.

(** The channel digit of a colour fragment. *)
Definition channel (isbg : bool) : string := if isbg then "4" else "3".

(** Two canvases with the same dimensions, cached cursor and
    cursor-to-end option. *)
Definition same_grid (c c' : Canvas) : Prop :=
  Width c' = Width c /\ Height c' = Height c
  /\ x c' = x c /\ y c' = y c
  /\ CursorOnEnd c' = CursorOnEnd c.

(** Two canvases with the same dimensions. *)
Definition same_dims (c c' : Canvas) : Prop :=
  Width c' = Width c /\ Height c' = Height c.

(** The state every public operation expects and re-establishes. *)
Definition cursor_ok (c : Canvas) : Prop :=
  int_dims c /\ cursor_in_bounds c.

(** The palette index [setBgFg] prints for a colour that is not the
    default: [RGBA] when it is set, [Term256] otherwise. *)
Definition palette_index (clr : Color) : Z :=
  match RGBA clr with
  | Some v => Palette.Index Colors v
  | None => Term256 clr
  end.

(** The one fragment [setBgFg] appends. *)
Definition color_fragment (clr : Color) (isbg : bool) : string :=
  escape ++ "[" ++ channel isbg
  ++ (if isDefault clr then "9m"
      else "8;5;" ++ Itoa (palette_index clr) ++ "m").

(** What a setter appends on a canvas: nothing for the cached value. *)
Definition style_change (c : Canvas) (s : Z) : string :=
  if style c =? s then "" else style_fragments s.

Definition fg_change (c : Canvas) (clr : Color) : string :=
  if Color_eq_dec (fg c) clr then "" else color_fragment clr false.

Definition bg_change (c : Canvas) (clr : Color) : string :=
  if Color_eq_dec (bg c) clr then "" else color_fragment clr true.

(** The text [Clear] writes for [n] rows of width [w], between its first
    and its last [Move]: each row is [w] blanks and the step back from the
    right edge; rows are joined by the motion to the start of the next. *)
Fixpoint clear_text (w : Z) (n : nat) : string :=
  match n with
  | O => ""
  | S k =>
      blanks (Z.to_nat w) ++ escape ++ "[1D"
      ++ match k with
         | O => ""
         | S _ => relative_motion (w - 1) 0 "C" "D" ++ escape ++ "[1B"
                  ++ clear_text w k
         end
  end.

(** What [NewCanvas] appends between two rows of the pre-fill: the
    background is reset for the rest of the terminal line and set again
    on the next one, unless it is the default already. *)
Definition row_separator (background : Color) : string :=
  if Color_eq_dec background ColorDefault then newline
  else color_fragment ColorDefault true ++ newline
       ++ color_fragment background true.

(** The [n] rows of the pre-fill of [NewCanvas]. *)
Fixpoint prefill_rows (w : Z) (background : Color) (n : nat) : string :=
  match n with
  | O => ""
  | S k =>
      blanks (Z.to_nat w)
      ++ match k with
         | O => ""
         | S _ => row_separator background ++ prefill_rows w background k
         end
  end.

(** The public operations, for sequences of calls. *)
Inductive op : Type :=
| OpMove (tx ty : Z)
| OpWrite (text : string)
| OpSet (tx ty : Z) (char : Z)
| OpWriteAt (tx ty : Z) (foreground background : Color) (sty : Z)
            (text : string)
| OpSetForeground (clr : Color)
| OpSetBackground (clr : Color)
| OpSetStyle (sty : Z)
| OpClear
| OpFlush
| OpGuarded (o : op)
| OpAssignLogger (l : option (list string))
| OpAssignCursorOnEnd (b : bool).

Fixpoint step (c : Canvas) (o : op) : option Canvas :=
  match o with
  | OpMove tx ty => Some (fst (Move c tx ty))
  | OpWrite text => Write c text
  | OpSet tx ty char => Set_ c tx ty char
  | OpWriteAt tx ty f b sty text => WriteAt c tx ty f b sty text
  | OpSetForeground clr => Some (SetForeground c clr)
  | OpSetBackground clr => Some (SetBackground c clr)
  | OpSetStyle sty => Some (SetStyle c sty)
  | OpClear => Clear c
  | OpFlush => Some (Flush c)
  | OpGuarded o' => step c o'
  | OpAssignLogger l => Some (set_Logger c l)
  | OpAssignCursorOnEnd b => Some (set_CursorOnEnd c b)
  end.

Fixpoint run (c : Canvas) (ops : list op) : option Canvas :=
  match ops with
  | [] => Some c
  | o :: ops' => step c o >>= fun c' => run c' ops'
  end.


(** * Properties *)

(** ** Integers, strings and runes *)

Lemma wrap_small (z : Z) : is_int z -> wrap z = z.
Proof.
unfold is_int, min_int, max_int, wrap. intros Hz.
rewrite Z.mod_small; lia.
Qed.

Lemma append_nil_r (s : string) : s ++ "" = s.
Proof. induction s as [|a s IH]; simpl; [reflexivity | now rewrite IH]. Qed.

Lemma append_assoc (s t u : string) : (s ++ t) ++ u = s ++ (t ++ u).
Proof. induction s as [|a s IH]; simpl; [reflexivity | now rewrite IH]. Qed.

Lemma length_take_le (n : nat) (s : string) : (String.length (take n s) <= n)%nat.
Proof.
revert s; induction n as [|n IH]; intros [|a s]; simpl; try lia.
specialize (IH s). lia.
Qed.

Lemma count_from_le (s : string) :
forall skip, (utf8.count_from skip s <= String.length s)%nat.
Proof.
induction s as [|a s IH]; intros skip; simpl; [lia|].
destruct skip as [|k].
- specialize (IH (utf8.step_size a s - 1)%nat). lia.
- specialize (IH k). lia.
Qed.

Lemma RuneCount_le_len (s : string) : utf8.RuneCountInString s <= len s.
Proof.
unfold utf8.RuneCountInString, len.
pose proof (count_from_le s 0). lia.
Qed.

Lemma RuneCount_nonneg (s : string) : 0 <= utf8.RuneCountInString s.
Proof. unfold utf8.RuneCountInString. lia. Qed.

Lemma RuneCount_take (n : nat) (s : string) :
utf8.RuneCountInString (take n s) <= Z.of_nat n.
Proof.
pose proof (RuneCount_le_len (take n s)) as H1.
pose proof (length_take_le n s) as H2.
unfold len in H1. lia.
Qed.

Lemma all_from_spec (f : Z -> bool) (n : nat) :
  forall lo, all_from f n lo = true ->
             forall r, lo <= r < lo + Z.of_nat n -> f r = true.
Proof.
  induction n as [|n IH]; intros lo Hall r Hr; simpl in Hall.
  - lia.
  - destruct (f lo) eqn:Ef; [|discriminate].
    destruct (Z.eq_dec r lo) as [->|Hne]; [exact Ef|].
    apply (IH (lo + 1) Hall). lia.
Qed.

Lemma len_app (a b : string) : len (a ++ b) = len a + len b.
Proof.
  unfold len. induction a as [|ch a IH]; simpl String.length; [lia|].
  simpl in IH. lia.
Qed.

(** A lead byte followed by all the bytes its table entry announces is
    scanned the same way whatever comes after them. *)
Lemma step_size_app (c : ascii) (b1 : ascii) (rest s : string) :
  128 <= byte_val c ->
  Z.land (utf8.first (byte_val c)) 7 = 1 + len (String b1 rest) ->
  utf8.step_size c (String b1 rest ++ s) = utf8.step_size c (String b1 rest).
Proof.
  intros Hc Hsize. unfold utf8.step_size, utf8.RuneSelf.
  destruct (Z.ltb_spec (byte_val c) 128) as [Hlt|_]; [lia|].
  destruct (utf8.first (byte_val c) =? utf8.xx); [reflexivity|].
  rewrite Hsize, len_app.
  pose proof (Nat2Z.is_nonneg (String.length s)) as Hs. fold (len s) in Hs.
  destruct (Z.ltb_spec (1 + (len (String b1 rest) + len s))
                       (1 + len (String b1 rest))) as [Habs|_]; [lia|].
  destruct (Z.ltb_spec (1 + len (String b1 rest))
                       (1 + len (String b1 rest))) as [Habs|_]; [lia|].
  destruct (utf8.acceptRanges (Z.shiftr (utf8.first (byte_val c)) 4))
    as [lo hi].
  change (String b1 rest ++ s) with (String b1 (rest ++ s)).
  cbv beta iota.
  destruct (utf8.outside (byte_val b1) lo hi); [reflexivity|].
  destruct rest as [|b2 rest].
  - reflexivity.
  - change (String b2 rest ++ s) with (String b2 (rest ++ s)).
    assert (H2 : (1 + len (String b1 (String b2 rest)) =? 2) = false).
    { apply Z.eqb_neq. unfold len. simpl String.length. lia. }
    rewrite H2. cbv beta iota.
    destruct (utf8.outside (byte_val b2) utf8.locb utf8.hicb); [reflexivity|].
    destruct rest as [|b3 rest].
    + reflexivity.
    + change (String b3 rest ++ s) with (String b3 (rest ++ s)).
      assert (H3 : (1 + len (String b1 (String b2 (String b3 rest))) =? 3)
                   = false).
      { apply Z.eqb_neq. unfold len. simpl String.length. lia. }
      rewrite H3. cbv beta iota. reflexivity.
Qed.

Lemma count_from_skip (r s : string) :
  utf8.count_from (String.length r) (r ++ s) = utf8.count_from 0 s.
Proof. induction r as [|ch r IH]; simpl; [reflexivity | exact IH]. Qed.

Lemma count_complete (e s : string) :
  complete_encoding e = true ->
  utf8.count_from 0 (e ++ s) = S (utf8.count_from 0 s).
Proof.
  destruct e as [|c rest]; [discriminate|]. unfold complete_encoding.
  destruct (Z.ltb_spec (byte_val c) 128) as [Hlt|Hge].
  - destruct rest; [|discriminate]. intros _.
    change (String c "" ++ s) with (String c s).
    cbn [utf8.count_from]. unfold utf8.step_size, utf8.RuneSelf.
    destruct (Z.ltb_spec (byte_val c) 128); [reflexivity | lia].
  - destruct rest as [|b1 rest]; [discriminate|].
    intros H. apply andb_true_iff in H. destruct H as [Hsize Hstep].
    apply Z.eqb_eq in Hsize. apply Nat.eqb_eq in Hstep.
    change (String c (String b1 rest) ++ s)
      with (String c (String b1 rest ++ s)).
    cbn [utf8.count_from].
    rewrite step_size_app by assumption. rewrite Hstep.
    replace (S (String.length (String b1 rest)) - 1)%nat
      with (String.length (String b1 rest)) by lia.
    now rewrite count_from_skip.
Qed.

Lemma encodings_checked :
  all_from (fun r => complete_encoding (utf8.string_of_rune r))
           (Z.to_nat 1114112) 0 = true.
Proof. vm_compute. reflexivity. Qed.

Lemma string_of_rune_complete (r : Z) :
  complete_encoding (utf8.string_of_rune r) = true.
Proof.
  destruct (Z_lt_dec r 0) as [Hneg|Hpos].
  - unfold utf8.string_of_rune.
    destruct (Z.ltb_spec r 0); [reflexivity | lia].
  - destruct (Z_lt_dec 1114111 r) as [Hbig|Hsmall].
    + unfold utf8.string_of_rune.
      destruct (Z.ltb_spec r 0); [reflexivity|].
      destruct (Z.ltb_spec 1114111 r); [reflexivity | lia].
    + apply (all_from_spec _ _ 0 encodings_checked r).
      rewrite Z2Nat.id; lia.
Qed.

(** [string(r)] is one rune for [RuneCountInString], whatever [r]. *)
Lemma string_of_rune_counts_one (r : Z) :
  utf8.RuneCountInString (utf8.string_of_rune r) = 1.
Proof.
  unfold utf8.RuneCountInString.
  rewrite <- (append_nil_r (utf8.string_of_rune r)).
  now rewrite (count_complete _ "" (string_of_rune_complete r)).
Qed.

(** Counting after encoding gives back the number of runes. *)
Lemma RuneCount_encode_runes (rs : list Z) :
  utf8.RuneCountInString (encode_runes rs) = Z.of_nat (List.length rs).
Proof.
  unfold utf8.RuneCountInString. f_equal.
  induction rs as [|r rs IH]; [reflexivity|].
  cbn [encode_runes List.length].
  now rewrite (count_complete _ _ (string_of_rune_complete r)), IH.
Qed.

Lemma count_from_ascii (s : string) :
  is_ascii s = true -> utf8.count_from 0 s = String.length s.
Proof.
  induction s as [|a s IH]; simpl; [reflexivity|].
  intros Ha. apply andb_true_iff in Ha. destruct Ha as [Ha Hs].
  unfold utf8.step_size, utf8.RuneSelf. rewrite Ha. simpl.
  now rewrite (IH Hs).
Qed.

Lemma is_ascii_take (n : nat) :
  forall s, is_ascii s = true -> is_ascii (take n s) = true.
Proof.
  induction n as [|n IH]; intros [|a s]; simpl; try reflexivity.
  intros Ha. apply andb_true_iff in Ha. destruct Ha as [Ha Hs].
  now rewrite Ha, (IH s Hs).
Qed.

Lemma length_take (n : nat) :
  forall s, (n <= String.length s)%nat -> String.length (take n s) = n.
Proof.
  induction n as [|n IH]; intros [|a s]; simpl; try lia.
  intros Hn. rewrite IH; lia.
Qed.

Lemma runes_from_ascii (n : nat) :
  forall s, is_ascii s = true -> runes_from 0 n s = take n s.
Proof.
  induction n as [|n IH]; intros [|a s]; simpl; try reflexivity.
  intros Ha. apply andb_true_iff in Ha. destruct Ha as [Ha Hs].
  unfold utf8.step_size, utf8.RuneSelf. rewrite Ha. simpl.
  now rewrite (IH s Hs).
Qed.

Lemma RuneCount_ascii (s : string) :
  is_ascii s = true -> utf8.RuneCountInString s = len s.
Proof.
  intros Ha. unfold utf8.RuneCountInString, len. now rewrite count_from_ascii.
Qed.

(** [strconv.Itoa] prints a decimal that reads back as the number. *)
Lemma decimal_Itoa (n : Z) : decimal_of (Itoa n) = Some n.
Proof.
  unfold decimal_of, Itoa. rewrite NilZero.isi.
  - simpl. now rewrite DecimalZ.of_to.
  - destruct n; simpl; try discriminate.
    intros [= E]. now apply (Unsigned.to_uint_nonnil p).
  - destruct n; simpl; try discriminate.
    intros [= E]. now apply (Unsigned.to_uint_nonnil p).
Qed.

(** ** Move *)

Lemma gtb_false_iff (a b : Z) : (a >? b) = false <-> a <= b.
Proof. rewrite Z.gtb_ltb, Z.ltb_ge. reflexivity. Qed.

Lemma move_relative (c : Canvas) (curr given : Z) (f b : string) :
  is_int (given - curr) -> is_int (curr - given) ->
  move c curr given f b = WriteString c (relative_motion curr given f b).
Proof.
  intros Hf Hb. unfold move, relative_motion, write, int_sub.
  rewrite (wrap_small _ Hf), (wrap_small _ Hb), Z.gtb_ltb.
  destruct (Z.ltb_spec curr given) as [Hlt|Hge].
  - destruct (Z.eqb_spec (given - curr) 0) as [E|_]; [lia|].
    destruct (Z.ltb_spec 0 (given - curr)); [|lia].
    rewrite Z.abs_eq by lia. reflexivity.
  - destruct (Z.ltb_spec given curr) as [Hgt|Hle].
    + destruct (Z.eqb_spec (given - curr) 0) as [E|_]; [lia|].
      destruct (Z.ltb_spec 0 (given - curr)); [lia|].
      rewrite Z.abs_neq by lia.
      replace (- (given - curr)) with (curr - given) by lia. reflexivity.
    + destruct (Z.eqb_spec (given - curr) 0) as [_|E]; [|lia].
      unfold WriteString. rewrite append_nil_r. now destruct c.
Qed.

Lemma bounds_test (c : Canvas) (tx ty : Z) :
  int_dims c -> 0 <= Width c -> 0 <= Height c ->
  ((tx >? int_sub (Width c) 1) || (tx <? 0)
   || (ty >? int_sub (Height c) 1) || (ty <? 0)) = false
  <-> in_bounds c tx ty.
Proof.
  intros [HW HH] H1 H2. unfold in_bounds, int_sub.
  unfold is_int, min_int, max_int in HW, HH.
  rewrite !wrap_small by (unfold is_int, min_int, max_int; lia).
  rewrite !orb_false_iff, !gtb_false_iff, !Z.ltb_ge. lia.
Qed.

Lemma Move_same (c : Canvas) : Move c (x c) (y c) = (c, None).
Proof. unfold Move. now rewrite !Z.eqb_refl. Qed.

Lemma Move_accepts (c : Canvas) (tx ty : Z) :
  int_dims c -> 0 <= x c <= Width c -> 0 <= y c <= Height c ->
  in_bounds c tx ty ->
  Move c tx ty =
    (set_xy (WriteString c (relative_motion (x c) tx "C" "D"
                            ++ relative_motion (y c) ty "B" "A")) tx ty,
     None).
Proof.
  intros Hd Hcx Hcy Ht.
  assert (HW : 0 <= Width c) by (destruct Ht; lia).
  assert (HH : 0 <= Height c) by (destruct Ht; lia).
  pose proof (proj2 (bounds_test c tx ty Hd HW HH) Ht) as Hb.
  destruct Hd as [HdW HdH], Ht as [Htx Hty].
  unfold is_int, min_int, max_int in HdW, HdH.
  unfold Move.
  destruct ((x c =? tx) && (y c =? ty)) eqn:E.
  - apply andb_true_iff in E. destruct E as [E1 E2].
    apply Z.eqb_eq in E1, E2. subst tx ty.
    unfold relative_motion. rewrite !Z.sub_diag. simpl.
    unfold WriteString, set_xy. simpl. rewrite append_nil_r.
    now destruct c.
  - rewrite Hb.
    rewrite !move_relative by (unfold is_int, min_int, max_int; simpl; lia).
    unfold WriteString, set_xy. simpl. now rewrite append_assoc.
Qed.

Lemma Move_in_bounds (c : Canvas) (tx ty : Z) :
  int_dims c -> cursor_in_bounds c -> in_bounds c tx ty ->
  Move c tx ty =
    (set_xy (WriteString c (relative_motion (x c) tx "C" "D"
                            ++ relative_motion (y c) ty "B" "A")) tx ty,
     None).
Proof.
  intros Hd [Hcx Hcy] Ht. apply Move_accepts; trivial; lia.
Qed.

(** C1. On a canvas whose cached cursor is in bounds, [Move] to an
    in-bounds target returns no error, sets the cached cursor to the
    target and appends to the buffer exactly the horizontal fragment
    (repeat count [|tx - x|] printed in decimal, opcode C or D, nothing
    when the delta is zero) followed by the vertical fragment (repeat
    count [|ty - y|], opcode B or A, nothing when the delta is zero);
    nothing else of the canvas changes.  A [Move] to the cached cursor
    position leaves the buffer, and the whole canvas, as they are. *)
Theorem Move_emits_relative_motion (c : Canvas) (tx ty : Z) :
  int_dims c -> cursor_in_bounds c -> in_bounds c tx ty ->
  let c' := fst (Move c tx ty) in
  let horizontal :=
    if tx - x c =? 0 then ""
    else escape ++ "[" ++ Itoa (Z.abs (tx - x c))
         ++ (if 0 <? tx - x c then "C" else "D") in
  let vertical :=
    if ty - y c =? 0 then ""
    else escape ++ "[" ++ Itoa (Z.abs (ty - y c))
         ++ (if 0 <? ty - y c then "B" else "A") in
  snd (Move c tx ty) = None
  /\ buf c' = buf c ++ horizontal ++ vertical
  /\ (decimal_of (Itoa (Z.abs (tx - x c))) = Some (Z.abs (tx - x c))
      /\ decimal_of (Itoa (Z.abs (ty - y c))) = Some (Z.abs (ty - y c)))
  /\ (x c' = tx /\ y c' = ty)
  /\ (Width c' = Width c /\ Height c' = Height c /\ Logger c' = Logger c
      /\ fg c' = fg c /\ bg c' = bg c /\ style c' = style c
      /\ stdout c' = stdout c)
  /\ (snd (Move c (x c) (y c)) = None
      /\ buf (fst (Move c (x c) (y c))) = buf c
      /\ fst (Move c (x c) (y c)) = c).
Proof.
  intros Hd Hc Ht. cbv zeta.
  rewrite (Move_in_bounds c tx ty Hd Hc Ht), Move_same.
  cbn [fst snd]. split; [reflexivity|]. split; [reflexivity|].
  split; [split; apply decimal_Itoa|].
  repeat split.
Qed.

Lemma Move_rejects (c : Canvas) (tx ty : Z) :
  int_dims c -> 0 <= Width c -> 0 <= Height c ->
  tx <> x c \/ ty <> y c -> ~ in_bounds c tx ty ->
  Move c tx ty =
    (errorF c ("out of bounds: (" ++ Itoa tx ++ "," ++ Itoa ty ++ ")"),
     Some ErrorOutOfBounds).
Proof.
  intros Hd HW HH Hne Ht.
  pose proof (bounds_test c tx ty Hd HW HH) as Hb.
  unfold Move.
  destruct ((x c =? tx) && (y c =? ty)) eqn:E.
  - apply andb_true_iff in E. destruct E as [E1 E2].
    apply Z.eqb_eq in E1, E2. lia.
  - destruct ((tx >? int_sub (Width c) 1) || (tx <? 0)
              || (ty >? int_sub (Height c) 1) || (ty <? 0)) eqn:E'.
    + reflexivity.
    + exfalso. apply Ht, Hb. reflexivity.
Qed.

Lemma errorF_frame (c : Canvas) (msg : string) :
  Width (errorF c msg) = Width c /\ Height (errorF c msg) = Height c
  /\ x (errorF c msg) = x c /\ y (errorF c msg) = y c
  /\ buf (errorF c msg) = buf c /\ fg (errorF c msg) = fg c
  /\ bg (errorF c msg) = bg c /\ style (errorF c msg) = style c
  /\ stdout (errorF c msg) = stdout c
  /\ CursorOnEnd (errorF c msg) = CursorOnEnd c
  /\ Background (errorF c msg) = Background c.
Proof. unfold errorF. destruct (Logger c); simpl; repeat split. Qed.

(** C2. On a canvas with non-negative dimensions, [Move]
    to a target that is not the cached cursor position and has
    [tx < 0], [tx >= Width], [ty < 0] or [ty >= Height] returns
    [ErrorOutOfBounds] and leaves the cached cursor (and the buffer)
    unchanged, only the diagnostic being logged; a [Move] to the cached
    cursor position returns no error wherever that position lies. *)
Theorem Move_out_of_bounds (c : Canvas) (tx ty : Z) :
  int_dims c -> 0 <= Width c -> 0 <= Height c ->
  tx <> x c \/ ty <> y c ->
  tx < 0 \/ tx >= Width c \/ ty < 0 \/ ty >= Height c ->
  (snd (Move c tx ty) = Some ErrorOutOfBounds
   /\ x (fst (Move c tx ty)) = x c
   /\ y (fst (Move c tx ty)) = y c
   /\ buf (fst (Move c tx ty)) = buf c)
  /\ Move c (x c) (y c) = (c, None).
Proof.
  intros Hd HW HH Hne Ht. split; [|apply Move_same].
  rewrite Move_rejects; try assumption.
  - simpl. pose proof (errorF_frame c
      ("out of bounds: (" ++ Itoa tx ++ "," ++ Itoa ty ++ ")")) as F.
    repeat split; apply F.
  - unfold in_bounds. lia.
Qed.

(** ** Write *)

Lemma Write_clip_total (c : Canvas) (text : string) :
  int_dims c -> cursor_in_bounds c ->
  Write_clip c text = Some (clipped c text, diagnosed c text).
Proof.
  intros [HdW HdH] [Hcx Hcy].
  unfold is_int, min_int, max_int in HdW, HdH.
  unfold Write_clip, clipped, diagnosed, int_sub.
  rewrite wrap_small by (unfold is_int, min_int, max_int; lia).
  rewrite Z.gtb_ltb.
  destruct (Z.ltb_spec (Width c - x c) (utf8.RuneCountInString text))
    as [Hlt|Hge]; [|reflexivity].
  unfold slice_to.
  pose proof (RuneCount_le_len text) as Hlen.
  destruct (Z.ltb_spec (Width c - x c) 0); [lia|].
  destruct (Z.ltb_spec (len text) (Width c - x c)); [lia|].
  reflexivity.
Qed.

Lemma clipped_fits (c : Canvas) (text : string) :
  cursor_in_bounds c ->
  0 <= utf8.RuneCountInString (clipped c text) <= Width c - x c.
Proof.
  intros [Hcx Hcy]. split; [apply RuneCount_nonneg|].
  unfold clipped. rewrite Z.gtb_ltb.
  destruct (Z.ltb_spec (Width c - x c) (utf8.RuneCountInString text)).
  - pose proof (RuneCount_take (Z.to_nat (Width c - x c)) text). lia.
  - lia.
Qed.

Lemma diagnosed_frame (c : Canvas) (text : string) :
  Width (diagnosed c text) = Width c /\ Height (diagnosed c text) = Height c
  /\ x (diagnosed c text) = x c /\ y (diagnosed c text) = y c
  /\ buf (diagnosed c text) = buf c.
Proof.
  unfold diagnosed.
  destruct (utf8.RuneCountInString text >? Width c - x c).
  - pose proof (errorF_frame c ("string truncated: " ++ text)) as F.
    repeat split; apply F.
  - repeat split.
Qed.

(** A text longer than the remaining columns is cut to that many bytes,
    and the condition reaches the logger, when there is one. *)
Lemma Write_truncation_logged (c : Canvas) (text : string)
      (printed : list string) :
  utf8.RuneCountInString text > Width c - x c ->
  Logger c = Some printed ->
  clipped c text = take (Z.to_nat (Width c - x c)) text
  /\ Logger (diagnosed c text)
     = Some (List.app printed ["[error] string truncated: " ++ text]).
Proof.
  intros Hl HL. unfold clipped, diagnosed, errorF.
  rewrite Z.gtb_ltb.
  destruct (Z.ltb_spec (Width c - x c) (utf8.RuneCountInString text));
    [|lia].
  rewrite HL. split; reflexivity.
Qed.

(** The result of [Write], spelled out. *)
Lemma Write_result (c : Canvas) (text : string) :
  int_dims c -> cursor_in_bounds c ->
  let c1 := diagnosed c text in
  let t := clipped c text in
  let nx := x c + utf8.RuneCountInString t in
  Write c text =
    Some (if nx >=? Width c
          then set_xy (WriteString c1 (t ++ escape ++ "[1D"))
                      (Width c - 1) (y c)
          else set_xy (WriteString c1 t) nx (y c)).
Proof.
  intros Hd Hc. cbv zeta.
  unfold Write. rewrite (Write_clip_total c text Hd Hc). simpl bind.
  pose proof (clipped_fits c text Hc) as Hfit.
  destruct (diagnosed_frame c text) as (FW & FH & Fx & Fy & Fb).
  destruct Hd as [HdW HdH]. destruct Hc as [Hcx Hcy].
  unfold is_int, min_int, max_int in HdW, HdH.
  cbn [x y Width Height set_xy WriteString set_buf buf].
  rewrite FW, Fx, Fy. unfold int_add, int_sub.
  rewrite !wrap_small by (unfold is_int, min_int, max_int; lia).
  rewrite Z.geb_leb.
  destruct (Z.leb_spec (Width c)
              (x c + utf8.RuneCountInString (clipped c text))) as [Hge|Hlt];
    [|reflexivity].
  assert (Ex : x c + utf8.RuneCountInString (clipped c text) = Width c)
    by lia.
  rewrite Ex.
  rewrite Move_accepts; cbn [x y Width Height set_xy WriteString set_buf buf fst].
  - unfold relative_motion.
    replace (Width c - 1 - Width c) with (-1) by lia.
    rewrite Z.sub_diag. simpl.
    unfold set_xy, WriteString. simpl.
    rewrite ?append_nil_r, append_assoc. reflexivity.
  - split; cbn; rewrite ?FW, ?FH; assumption.
  - rewrite FW. lia.
  - rewrite FH. lia.
  - unfold in_bounds. cbn. rewrite FW, FH. lia.
Qed.

(** C4. On a canvas whose cached cursor is in bounds, [Write] returns.
    The buffer receives the text kept by [Write], followed by the
    one-column step back [ESC[1D] exactly when the text reaches the right
    edge.  The row is unchanged.  The cached column is the old one plus
    the rune count of the text kept, clamped to [Width - 1]: it never
    reaches [Width], and a text that exactly fills the remaining columns
    leaves it at [Width - 1].  The rune count is the number of characters:
    for a text of plain ASCII the column advances by its length (clamped),
    and for the encoding of a list of runes that fits in the remaining
    columns the whole text is kept and the column advances by the length
    of the list (clamped). *)
Theorem Write_advances_and_clamps (c : Canvas) (text : string) :
  int_dims c -> cursor_in_bounds c ->
  exists c',
    Write c text = Some c'
    /\ buf c' = buf c ++ clipped c text
                ++ (if x c + utf8.RuneCountInString (clipped c text)
                       >=? Width c
                    then escape ++ "[1D" else "")
    /\ y c' = y c
    /\ x c' = Z.min (x c + utf8.RuneCountInString (clipped c text))
                    (Width c - 1)
    /\ x c' <= Width c - 1
    /\ x c' <> Width c
    /\ (utf8.RuneCountInString text = Width c - x c -> x c' = Width c - 1)
    /\ (Width c' = Width c /\ Height c' = Height c)
    /\ (is_ascii text = true ->
        x c' = Z.min (x c + len text) (Width c - 1))
    /\ (forall rs : list Z,
          text = encode_runes rs ->
          Z.of_nat (List.length rs) <= Width c - x c ->
          clipped c text = text
          /\ x c' = Z.min (x c + Z.of_nat (List.length rs)) (Width c - 1)).
Proof.
  intros Hd Hc.
  pose proof (Write_result c text Hd Hc) as HW. cbv zeta in HW.
  pose proof (clipped_fits c text Hc) as Hfit.
  destruct (diagnosed_frame c text) as (FW & FH & Fx & Fy & Fb).
  pose proof Hc as [Hcx Hcy].
  assert (Hkeep : utf8.RuneCountInString text <= Width c - x c ->
                  clipped c text = text).
  { intros E. unfold clipped. rewrite Z.gtb_ltb.
    destruct (Z.ltb_spec (Width c - x c) (utf8.RuneCountInString text));
      [lia | reflexivity]. }
  assert (Hascii : is_ascii text = true ->
                   Z.min (x c + utf8.RuneCountInString (clipped c text))
                         (Width c - 1)
                   = Z.min (x c + len text) (Width c - 1)).
  { intros Ha. unfold clipped. rewrite Z.gtb_ltb, (RuneCount_ascii text Ha).
    destruct (Z.ltb_spec (Width c - x c) (len text)) as [Hlong|Hshort];
      [|now rewrite (RuneCount_ascii text Ha)].
    rewrite (RuneCount_ascii _ (is_ascii_take _ text Ha)).
    unfold len in *. rewrite length_take by lia. lia. }
  assert (Hrunes : forall rs : list Z,
             text = encode_runes rs ->
             Z.of_nat (List.length rs) <= Width c - x c ->
             clipped c text = text
             /\ Z.min (x c + utf8.RuneCountInString (clipped c text))
                      (Width c - 1)
                = Z.min (x c + Z.of_nat (List.length rs)) (Width c - 1)).
  { intros rs Ers Hrs.
    assert (El : utf8.RuneCountInString text = Z.of_nat (List.length rs))
      by (rewrite Ers; apply RuneCount_encode_runes).
    assert (Ek : clipped c text = text) by (apply Hkeep; lia).
    split; [exact Ek|]. now rewrite Ek, El. }
  rewrite Z.geb_leb in HW. rewrite Z.geb_leb.
  destruct (Z.leb_spec (Width c)
              (x c + utf8.RuneCountInString (clipped c text))) as [Hge|Hlt].
  - eexists. split; [exact HW|].
    cbn [buf x y Width Height set_xy WriteString set_buf].
    rewrite FW, FH, Fb.
    assert (Em : Z.min (x c + utf8.RuneCountInString (clipped c text))
                       (Width c - 1) = Width c - 1) by lia.
    split; [rewrite ?append_assoc; reflexivity|]. split; [reflexivity|].
    split; [now rewrite Em|]. split; [lia|]. split; [lia|].
    split; [reflexivity|]. split; [split; reflexivity|].
    split.
    + intros Ha. rewrite <- (Hascii Ha). now rewrite Em.
    + intros rs Ers Hrs. destruct (Hrunes rs Ers Hrs) as [Ek Emin].
      split; [exact Ek|]. rewrite <- Emin. now rewrite Em.
  - eexists. split; [exact HW|].
    cbn [buf x y Width Height set_xy WriteString set_buf].
    rewrite FW, FH, Fb.
    assert (Em : Z.min (x c + utf8.RuneCountInString (clipped c text))
                       (Width c - 1)
                 = x c + utf8.RuneCountInString (clipped c text)) by lia.
    split; [now rewrite append_nil_r|]. split; [reflexivity|].
    split; [now rewrite Em|]. split; [lia|]. split; [lia|].
    split.
    { intros E. rewrite (Hkeep ltac:(lia)) in Hlt. lia. }
    split; [split; reflexivity|].
    split.
    + intros Ha. rewrite <- (Hascii Ha). now rewrite Em.
    + intros rs Ers Hrs. destruct (Hrunes rs Ers Hrs) as [Ek Emin].
      split; [exact Ek|]. rewrite <- Emin. now rewrite Em.
Qed.


(** ** Colours and styles *)

Lemma WriteString_nil (c : Canvas) : WriteString c "" = c.
Proof. unfold WriteString. rewrite append_nil_r. now destruct c. Qed.

Lemma WriteString_twice (c : Canvas) (a b : string) :
  WriteString (WriteString c a) b = WriteString c (a ++ b).
Proof. unfold WriteString, set_buf. simpl. now rewrite append_assoc. Qed.

Lemma style_bit_writes (s bit : Z) (code : string) (c : Canvas) :
  style_bit s bit code c = WriteString c (style_code s bit code).
Proof.
  unfold style_bit, style_code.
  destruct (Z.land s bit =? 0); [now rewrite WriteString_nil | reflexivity].
Qed.

Lemma SetStyle_same (c : Canvas) : SetStyle c (style c) = c.
Proof. unfold SetStyle. now rewrite Z.eqb_refl. Qed.

Lemma SetStyle_changes (c : Canvas) (s : Z) :
  style c <> s ->
  SetStyle c s = set_style (WriteString c (style_fragments s)) s.
Proof.
  intros Hne. unfold SetStyle.
  destruct (Z.eqb_spec (style c) s) as [E|_]; [contradiction|].
  rewrite !style_bit_writes, !WriteString_twice.
  unfold style_fragments. now rewrite ?append_assoc.
Qed.

Lemma SetStyle_caches (c : Canvas) (s : Z) : style (SetStyle c s) = s.
Proof.
  destruct (Z.eq_dec (style c) s) as [E|Hne].
  - subst s. now rewrite SetStyle_same.
  - now rewrite SetStyle_changes.
Qed.

Lemma SetForeground_same (c : Canvas) : SetForeground c (fg c) = c.
Proof.
  unfold SetForeground.
  destruct (Color_eq_dec (fg c) (fg c)) as [_|Hne];
    [reflexivity | now elim Hne].
Qed.

Lemma SetBackground_same (c : Canvas) : SetBackground c (bg c) = c.
Proof.
  unfold SetBackground.
  destruct (Color_eq_dec (bg c) (bg c)) as [_|Hne];
    [reflexivity | now elim Hne].
Qed.

(** C5. [SetForeground], [SetBackground] and [SetStyle] called with the
    cached value return the canvas as it was: no field changes and the
    buffer receives nothing.  In particular the second of two
    consecutive [SetStyle(StyleBold)] changes nothing. *)
Theorem cached_value_is_noop (c : Canvas) :
  SetForeground c (fg c) = c
  /\ SetBackground c (bg c) = c
  /\ SetStyle c (style c) = c
  /\ SetStyle (SetStyle c StyleBold) StyleBold = SetStyle c StyleBold.
Proof.
  repeat split.
  - apply SetForeground_same.
  - apply SetBackground_same.
  - apply SetStyle_same.
  - rewrite <- (SetStyle_caches c StyleBold) at 2. apply SetStyle_same.
Qed.

Lemma no_attribute_bit (s bit : Z) :
  Z.land s attribute_bits = 0 -> Z.land attribute_bits bit = bit ->
  Z.land s bit = 0.
Proof.
  intros Hs Hb. rewrite <- Hb, Z.land_assoc, Hs. apply Z.land_0_l.
Qed.

Lemma style_fragments_blank (s : Z) :
  Z.land s attribute_bits = 0 -> style_fragments s = "".
Proof.
  intros Hs. unfold style_fragments, style_code.
  rewrite !(no_attribute_bit s _ Hs) by reflexivity. reflexivity.
Qed.

Lemma style_code_blank (s bit : Z) (code : string) :
  style_code s bit code = "" -> Z.land s bit = 0.
Proof.
  unfold style_code. destruct (Z.eqb_spec (Z.land s bit) 0); [trivial|].
  discriminate.
Qed.

Lemma append_blank (a b : string) : a ++ b = "" -> a = "" /\ b = "".
Proof. destruct a; simpl; [auto | discriminate]. Qed.

Lemma style_fragments_visible (s : Z) :
  Z.land s attribute_bits <> 0 -> style_fragments s <> "".
Proof.
  intros Hs Hf. apply Hs. unfold style_fragments in Hf.
  repeat (apply append_blank in Hf;
          let H1 := fresh "B" in destruct Hf as [H1 Hf];
          apply style_code_blank in H1).
  apply style_code_blank in Hf.
  unfold attribute_bits. rewrite !Z.land_lor_distr_r.
  rewrite B, B0, B1, B2, B3, B4, Hf. reflexivity.
Qed.

(** C10. A style word that differs from the cached one and has none of
    the seven attribute bits set (such as [StyleNoChange] or 0) makes
    [SetStyle] append nothing and still replace the cached style; a
    following [SetStyle] with the style cached before is therefore not
    skipped: it appends the fragments of that style again. *)
Theorem SetStyle_blank_overwrites_cache (c : Canvas) (s : Z) :
  s <> style c -> Z.land s attribute_bits = 0 ->
  SetStyle c s = set_style c s
  /\ buf (SetStyle c s) = buf c
  /\ style (SetStyle c s) = s
  /\ buf (SetStyle (SetStyle c s) (style c))
     = buf c ++ style_fragments (style c)
  /\ style (SetStyle (SetStyle c s) (style c)) = style c
  /\ (Z.land (style c) attribute_bits <> 0 ->
      style_fragments (style c) <> "").
Proof.
  intros Hne Hs.
  assert (E : SetStyle c s = set_style c s).
  { rewrite SetStyle_changes by congruence.
    now rewrite style_fragments_blank, WriteString_nil. }
  rewrite E. repeat split.
  - rewrite SetStyle_changes by (simpl; congruence). reflexivity.
  - apply SetStyle_caches.
  - apply style_fragments_visible.
Qed.

(** ** Composite operations *)

Lemma Move_failure (c : Canvas) (tx ty : Z) (e : error) :
  snd (Move c tx ty) = Some e ->
  e = ErrorOutOfBounds
  /\ fst (Move c tx ty)
     = errorF c ("out of bounds: (" ++ Itoa tx ++ "," ++ Itoa ty ++ ")").
Proof.
  unfold Move.
  destruct ((x c =? tx) && (y c =? ty)); [discriminate|].
  destruct ((tx >? int_sub (Width c) 1) || (tx <? 0)
            || (ty >? int_sub (Height c) 1) || (ty <? 0));
    simpl; intros E; [|discriminate].
  split; congruence.
Qed.

(** C6. When the initial [Move] of a composite operation fails, [Set]
    returns normally without writing the character and [WriteAt]
    returns without applying style, colours or text: in both cases the
    canvas is the one [Move] left, whose buffer, cursor, colours and
    style are those before the call (only the diagnostic was logged). *)
Theorem composite_stops_on_failed_Move
  (c : Canvas) (tx ty char : Z) (foreground background : Color) (sty : Z)
  (text : string) :
  snd (Move c tx ty) = Some ErrorOutOfBounds ->
  let c' := fst (Move c tx ty) in
  Set_ c tx ty char = Some c'
  /\ WriteAt c tx ty foreground background sty text = Some c'
  /\ buf c' = buf c /\ x c' = x c /\ y c' = y c
  /\ fg c' = fg c /\ bg c' = bg c /\ style c' = style c
  /\ stdout c' = stdout c.
Proof.
  intros Herr c'.
  destruct (Move_failure c tx ty _ Herr) as [_ Hc'].
  assert (Hs : Set_ c tx ty char = Some c').
  { unfold Set_, c'. destruct (Move c tx ty) as [c1 err].
    simpl in Herr. now subst err. }
  assert (Hw : WriteAt c tx ty foreground background sty text = Some c').
  { unfold WriteAt, c'. destruct (Move c tx ty) as [c1 err].
    simpl in Herr. now subst err. }
  pose proof (errorF_frame c
    ("out of bounds: (" ++ Itoa tx ++ "," ++ Itoa ty ++ ")")) as F.
  split; [exact Hs|]. split; [exact Hw|].
  unfold c'. rewrite Hc'. repeat split; apply F.
Qed.


(** ** The palette search *)

Lemma dist_range (c v : Z * Z * Z * Z) :
  0 <= Palette.dist c v <= max_uint32.
Proof.
  destruct c as [[[cr cg] cb] ca], v as [[[vr vg] vb] va].
  unfold Palette.dist, wrap32, max_uint32.
  match goal with |- 0 <= ?a mod ?m <= _ =>
    pose proof (Z.mod_pos_bound a m) as Hm end.
  lia.
Qed.

Lemma scan_spec (c : Z * Z * Z * Z) (p : list T) :
  forall i ret best,
    (Palette.scan c p i ret best = ret
     /\ forall m w, nth_error p m = Some w ->
                    best <= Palette.dist c (RGBA_of w))
    \/ (exists n v,
           Palette.scan c p i ret best = i + Z.of_nat n
           /\ nth_error p n = Some v
           /\ Palette.dist c (RGBA_of v) < best
           /\ (forall m w, nth_error p m = Some w ->
                 Palette.dist c (RGBA_of v) <= Palette.dist c (RGBA_of w))
           /\ (forall m w, (m < n)%nat -> nth_error p m = Some w ->
                 Palette.dist c (RGBA_of v) < Palette.dist c (RGBA_of w))).
Proof.
  induction p as [|v p IH]; intros i ret best; simpl.
  - left. split; [reflexivity|]. intros [|m] w; discriminate.
  - destruct (Z.ltb_spec (Palette.dist c (RGBA_of v)) best) as [Hlt|Hge].
    + destruct (Z.eqb_spec (Palette.dist c (RGBA_of v)) 0) as [E0|Hn0].
      * right. exists 0%nat, v. repeat split; try assumption.
        -- lia.
        -- intros m w _. rewrite E0. apply dist_range.
        -- intros m w Hm. lia.
      * destruct (IH (i + 1) i (Palette.dist c (RGBA_of v)))
          as [[Hk Hall]|(n & u & Hk & Hn & Hd & Hall & Hbef)].
        -- right. exists 0%nat, v. repeat split; try assumption.
           ++ rewrite Hk. lia.
           ++ intros [|m] w Hw; simpl in Hw.
              ** injection Hw as <-. lia.
              ** eapply Hall; eassumption.
           ++ intros m w Hm. lia.
        -- right. exists (S n), u. repeat split.
           ++ rewrite Hk. lia.
           ++ exact Hn.
           ++ lia.
           ++ intros [|m] w Hw; simpl in Hw.
              ** injection Hw as <-. lia.
              ** eapply Hall; eassumption.
           ++ intros [|m] w Hm Hw; simpl in Hw.
              ** injection Hw as <-. lia.
              ** eapply Hbef; [|eassumption]. lia.
    + destruct (IH (i + 1) ret best)
        as [[Hk Hall]|(n & u & Hk & Hn & Hd & Hall & Hbef)].
      * left. split; [exact Hk|].
        intros [|m] w Hw; simpl in Hw.
        -- injection Hw as <-. lia.
        -- eapply Hall; eassumption.
      * right. exists (S n), u. repeat split.
        -- rewrite Hk. lia.
        -- exact Hn.
        -- exact Hd.
        -- intros [|m] w Hw; simpl in Hw.
           ++ injection Hw as <-. lia.
           ++ eapply Hall; eassumption.
        -- intros [|m] w Hm Hw; simpl in Hw.
           ++ injection Hw as <-. lia.
           ++ eapply Hbef; [|eassumption]. lia.
Qed.

(** [Index] returns the position of an entry at minimum distance, and
    every entry before it is strictly farther. *)
Lemma Index_least_argmin (p : list T) (c : T) :
  p <> [] ->
  exists n v,
    Palette.Index p c = Z.of_nat n
    /\ nth_error p n = Some v
    /\ (forall m w, nth_error p m = Some w ->
          Palette.dist (RGBA_of c) (RGBA_of v)
          <= Palette.dist (RGBA_of c) (RGBA_of w))
    /\ (forall m w, (m < n)%nat -> nth_error p m = Some w ->
          Palette.dist (RGBA_of c) (RGBA_of v)
          < Palette.dist (RGBA_of c) (RGBA_of w)).
Proof.
  intros Hp. unfold Palette.Index.
  destruct (scan_spec (RGBA_of c) p 0 0 max_uint32)
    as [[Hk Hall]|(n & u & Hk & Hn & Hd & Hall & Hbef)].
  - destruct p as [|v0 p]; [contradiction|].
    exists 0%nat, v0. repeat split.
    + exact Hk.
    + intros m w Hw. specialize (Hall m w Hw).
      pose proof (dist_range (RGBA_of c) (RGBA_of v0)). lia.
    + intros m w Hm. lia.
  - exists n, u. repeat split; assumption.
Qed.

Lemma setBgFg_indexed (c : Canvas) (v : T) (n : Z) (isbg : bool) :
  setBgFg c (mkColor (Some v) n false) isbg
  = WriteString c (escape ++ "[" ++ channel isbg ++ "8;5;"
                   ++ Itoa (Palette.Index Colors v) ++ "m").
Proof.
  unfold setBgFg. simpl. rewrite !WriteString_twice, ?append_assoc.
  now destruct isbg.
Qed.

Lemma setBgFg_term256 (c : Canvas) (n : Z) (isbg : bool) :
  setBgFg c (mkColor None n false) isbg
  = WriteString c (escape ++ "[" ++ channel isbg ++ "8;5;" ++ Itoa n ++ "m").
Proof.
  unfold setBgFg. simpl. rewrite !WriteString_twice, ?append_assoc.
  now destruct isbg.
Qed.

Lemma dist_self (c : Z * Z * Z * Z) : Palette.dist c c = 0.
Proof.
  destruct c as [[[cr cg] cb] ca].
  unfold Palette.dist, Palette.sqDiff. rewrite !Z.sub_diag. reflexivity.
Qed.

(** A colour that sits in the table resolves to its own position, unless
    an earlier entry is at distance zero from it. *)
Lemma Index_of_entry (p : list T) (v : T) (k : nat) (e : T) :
  nth_error p k = Some e -> RGBA_of v = RGBA_of e ->
  (forall j w, (j < k)%nat -> nth_error p j = Some w ->
               0 < Palette.dist (RGBA_of e) (RGBA_of w)) ->
  Palette.Index p v = Z.of_nat k.
Proof.
  intros Hk Hv Hearlier.
  assert (Hp : p <> []) by (intros ->; destruct k; discriminate).
  destruct (Index_least_argmin p v Hp) as (n & u & Hi & Hn & Hmin & Hlow).
  rewrite Hi. f_equal.
  pose proof (Hmin k e Hk) as Hke. rewrite Hv, dist_self in Hke.
  pose proof (dist_range (RGBA_of v) (RGBA_of u)) as Hr. rewrite Hv in Hr.
  destruct (Nat.lt_total n k) as [Hlt|[Heq|Hgt]].
  - specialize (Hearlier n u Hlt Hn). lia.
  - exact Heq.
  - specialize (Hlow k e Hgt Hk). rewrite Hv, dist_self in Hlow. lia.
Qed.

(** C9. For a colour given as an RGB value, the buffer receives the
    set-256-colour fragment of the channel, [ESC[38;5;<n>m] or
    [ESC[48;5;<n>m], where [n], printed in decimal, is the position in
    the palette of an entry at minimum distance from the value, every
    entry before that position being strictly farther (lowest index on
    ties).  [SetForeground] and [SetBackground] append that fragment and
    cache the colour whenever it is not the cached one.  An RGB value
    that is the one of a palette entry resolves, through the search, to
    the position of that entry when no earlier entry is at distance zero
    from it: so do the sixteen primaries, which head the palette.  The
    sixteen named colours carry the indices 0 to 15. *)
Theorem rgb_resolves_to_nearest_entry
  (c : Canvas) (v : T) (t : Z) (isbg : bool) :
  Colors <> [] ->
  let clr := mkColor (Some v) t false in
  exists n entry,
    nth_error Colors n = Some entry
    /\ (forall m w, nth_error Colors m = Some w ->
          Palette.dist (RGBA_of v) (RGBA_of entry)
          <= Palette.dist (RGBA_of v) (RGBA_of w))
    /\ (forall m w, (m < n)%nat -> nth_error Colors m = Some w ->
          Palette.dist (RGBA_of v) (RGBA_of entry)
          < Palette.dist (RGBA_of v) (RGBA_of w))
    /\ setBgFg c clr isbg
       = WriteString c (escape ++ "[" ++ channel isbg ++ "8;5;"
                        ++ Itoa (Z.of_nat n) ++ "m")
    /\ buf (setBgFg c clr isbg)
       = buf c ++ escape ++ "[" ++ (if isbg then "4" else "3") ++ "8;5;"
               ++ Itoa (Z.of_nat n) ++ "m"
    /\ decimal_of (Itoa (Z.of_nat n)) = Some (Z.of_nat n)
    /\ (fg c <> clr ->
        buf (SetForeground c clr)
        = buf c ++ escape ++ "[38;5;" ++ Itoa (Z.of_nat n) ++ "m"
        /\ fg (SetForeground c clr) = clr)
    /\ (bg c <> clr ->
        buf (SetBackground c clr)
        = buf c ++ escape ++ "[48;5;" ++ Itoa (Z.of_nat n) ++ "m"
        /\ bg (SetBackground c clr) = clr)
    /\ (forall k e, nth_error Colors k = Some e ->
          RGBA_of v = RGBA_of e ->
          (forall j w, (j < k)%nat -> nth_error Colors j = Some w ->
                       0 < Palette.dist (RGBA_of e) (RGBA_of w)) ->
          n = k)
    /\ (forall k named, nth_error named_colors k = Some named ->
          buf (setBgFg c named isbg)
          = buf c ++ escape ++ "[" ++ (if isbg then "4" else "3") ++ "8;5;"
                  ++ Itoa (Z.of_nat k) ++ "m").
Proof.
  intros Hp clr.
  destruct (Index_least_argmin Colors v Hp) as (n & e & Hi & Hn & Hmin & Hlow).
  exists n, e. split; [exact Hn|]. split; [exact Hmin|].
  split; [exact Hlow|].
  assert (Hfrag : forall b, setBgFg c clr b
            = WriteString c (escape ++ "[" ++ channel b ++ "8;5;"
                             ++ Itoa (Z.of_nat n) ++ "m")).
  { intros b. unfold clr. rewrite setBgFg_indexed, Hi. reflexivity. }
  split; [apply Hfrag|].
  split; [rewrite Hfrag; now destruct isbg|].
  split; [apply decimal_Itoa|].
  split; [|split; [|split]].
  - intros Hne. unfold SetForeground.
    destruct (Color_eq_dec (fg c) clr) as [E|_]; [contradiction|].
    rewrite Hfrag. split; reflexivity.
  - intros Hne. unfold SetBackground.
    destruct (Color_eq_dec (bg c) clr) as [E|_]; [contradiction|].
    rewrite Hfrag. split; reflexivity.
  - intros k e' Hk Hv Hearlier.
    pose proof (Index_of_entry Colors v k e' Hk Hv Hearlier) as Hik.
    rewrite Hi in Hik. now apply Nat2Z.inj.
  - intros k named Hk.
    do 16 (destruct k as [|k];
           [injection Hk as <-;
            etransitivity;
              [apply (f_equal buf); apply setBgFg_term256
              | now destruct isbg]|]).
    destruct k; discriminate.
Qed.


(** ** Flush *)

Lemma Flush_empties (c : Canvas) : buf (Flush c) = "".
Proof. reflexivity. Qed.

Lemma Flush_plain (c : Canvas) :
  CursorOnEnd c = false ->
  Flush c
  = set_buf (set_stdout c (List.app (stdout c) [fmt_Printf (buf c)])) "".
Proof. unfold Flush. now intros ->. Qed.

(** With a buffer free of percent signs the terminal receives the buffer
    itself, in one write. *)
Lemma Flush_verbatim (c : Canvas) :
  Printf_verbatim -> CursorOnEnd c = false -> has_percent (buf c) = false ->
  stdout (Flush c) = List.app (stdout c) [buf c].
Proof.
  intros HP Hend Hb. rewrite Flush_plain by assumption. simpl.
  now rewrite (HP _ Hb).
Qed.

Lemma Flush_cursor_on_end (c : Canvas) :
  cursor_ok c -> CursorOnEnd c = true ->
  x (Flush c) = Width c - 1 /\ y (Flush c) = Height c - 1.
Proof.
  intros [Hd Hc] Hend. unfold Flush. rewrite Hend.
  assert (HW : is_int (Width c - 1) /\ is_int (Height c - 1)).
  { destruct Hd as [HdW HdH], Hc as [Hcx Hcy].
    unfold is_int, min_int, max_int in *. lia. }
  unfold int_sub. rewrite !wrap_small by apply HW.
  rewrite Move_in_bounds; trivial.
  - simpl. split; reflexivity.
  - destruct Hc. unfold in_bounds. lia.
Qed.

(** C7. The canvas built by [NewCanvas(10, 1, ColorDefault)] followed by
    [Write("hi%d")] holds exactly [hi%d] in its pending buffer; [Flush]
    passes the buffer to [fmt.Printf] as the format, so what reaches the
    terminal is [hi%!d(MISSING)] and not the buffer.  The buffer is
    empty afterwards. *)
Theorem Flush_prints_buffer_as_format :
  Printf_missing ->
  exists c,
    Write (NewCanvas 10 1 ColorDefault) "hi%d" = Some c
    /\ buf c = "hi%d"
    /\ stdout (Flush c) = List.app (stdout c) ["hi%!d(MISSING)"]
    /\ stdout (Flush c) <> List.app (stdout c) [buf c]
    /\ buf (Flush c) = "".
Proof.
  intros HP. eexists. split; [vm_compute; reflexivity|].
  split; [reflexivity|].
  assert (E : fmt_Printf "hi%d" = "hi%!d(MISSING)")
    by (apply (HP "hi"); reflexivity).
  rewrite Flush_plain by reflexivity. cbn [stdout set_buf set_stdout buf].
  rewrite E. split; [reflexivity|]. split; [|reflexivity].
  intros Habs. apply app_inv_head in Habs. discriminate.
Qed.

(** C3. On a canvas of width 3 with the cursor in column 1, two columns
    remain.  Writing three bullets (nine bytes) keeps the first two
    bytes of the text, which is the beginning of one bullet cut inside
    its encoding, where truncation on whole characters keeps the first
    two bullets. *)
Theorem Write_truncates_by_bytes :
  let c0 := fst (Move (NewCanvas 3 1 ColorDefault) 1 0) in
  let text := bullet ++ bullet ++ bullet in
  utf8.RuneCountInString text = 3
  /\ Width c0 - x c0 = 2
  /\ exists c',
       Write c0 text = Some c'
       /\ buf c' = buf c0
                   ++ String (byte_of 226) (String (byte_of 128) "")
                   ++ escape ++ "[1D"
       /\ take_runes 2 text = bullet ++ bullet
       /\ clipped c0 text <> take_runes 2 text.
Proof.
  cbv zeta. split; [reflexivity|]. split; [reflexivity|].
  eexists. split; [vm_compute; reflexivity|].
  split; [reflexivity|]. split; [reflexivity|].
  vm_compute. discriminate.
Qed.


(** ** The cursor invariant *)

Lemma same_grid_refl (c : Canvas) : same_grid c c.
Proof. repeat split. Qed.

Lemma same_grid_trans (a b c : Canvas) :
  same_grid a b -> same_grid b c -> same_grid a c.
Proof.
  unfold same_grid. intros (?&?&?&?&?) (?&?&?&?&?).
  repeat split; congruence.
Qed.

Lemma same_grid_ok (c c' : Canvas) :
  same_grid c c' -> cursor_ok c -> cursor_ok c'.
Proof.
  intros (EW & EH & Ex & Ey & _) [[HdW HdH] [Hcx Hcy]].
  unfold cursor_ok, int_dims, cursor_in_bounds, in_bounds.
  rewrite EW, EH, Ex, Ey. auto.
Qed.

Lemma WriteString_grid (c : Canvas) (s : string) :
  same_grid c (WriteString c s).
Proof. repeat split. Qed.

Lemma setBgFg_grid (c : Canvas) (clr : Color) (isbg : bool) :
  same_grid c (setBgFg c clr isbg).
Proof. unfold setBgFg. destruct (isDefault clr); repeat split. Qed.

Lemma SetBackground_grid (c : Canvas) (clr : Color) :
  same_grid c (SetBackground c clr).
Proof.
  unfold SetBackground. destruct (Color_eq_dec (bg c) clr).
  - apply same_grid_refl.
  - destruct (setBgFg_grid c clr true) as (?&?&?&?&?).
    repeat split; assumption.
Qed.

Lemma SetForeground_grid (c : Canvas) (clr : Color) :
  same_grid c (SetForeground c clr).
Proof.
  unfold SetForeground. destruct (Color_eq_dec (fg c) clr).
  - apply same_grid_refl.
  - destruct (setBgFg_grid c clr false) as (?&?&?&?&?).
    repeat split; assumption.
Qed.

Lemma SetStyle_grid (c : Canvas) (s : Z) : same_grid c (SetStyle c s).
Proof.
  destruct (Z.eq_dec (style c) s) as [E|Hne].
  - subst s. rewrite SetStyle_same. apply same_grid_refl.
  - rewrite SetStyle_changes by assumption. repeat split.
Qed.

Lemma in_bounds_dec (c : Canvas) (tx ty : Z) :
  {in_bounds c tx ty} + {~ in_bounds c tx ty}.
Proof.
  unfold in_bounds.
  destruct (Z_le_dec 0 tx), (Z_lt_dec tx (Width c)),
           (Z_le_dec 0 ty), (Z_lt_dec ty (Height c));
    solve [left; lia | right; lia].
Defined.

Lemma Move_keeps (c : Canvas) (tx ty : Z) :
  cursor_ok c -> cursor_ok (fst (Move c tx ty)).
Proof.
  intros Hok. pose proof Hok as [Hd Hc].
  destruct (in_bounds_dec c tx ty) as [Hin|Hout].
  - rewrite Move_in_bounds by assumption. simpl.
    split; [exact Hd | exact Hin].
  - assert (Hne : tx <> x c \/ ty <> y c).
    { destruct Hc as [Hcx Hcy]. unfold in_bounds in Hout. lia. }
    destruct Hc as [Hcx Hcy].
    rewrite Move_rejects; [|exact Hd|lia|lia|exact Hne|exact Hout].
    simpl. apply (same_grid_ok c); [|exact Hok].
    pose proof (errorF_frame c
      ("out of bounds: (" ++ Itoa tx ++ "," ++ Itoa ty ++ ")")) as F.
    repeat split; apply F.
Qed.

Lemma Write_keeps (c : Canvas) (text : string) :
  cursor_ok c -> exists c', Write c text = Some c' /\ cursor_ok c'.
Proof.
  intros [Hd Hc].
  pose proof (Write_result c text Hd Hc) as HW. cbv zeta in HW.
  pose proof (clipped_fits c text Hc) as Hfit.
  destruct (diagnosed_frame c text) as (FW & FH & Fx & Fy & Fb).
  eexists. split; [exact HW|].
  destruct Hd as [HdW HdH], Hc as [Hcx Hcy].
  rewrite Z.geb_leb.
  destruct (Z.leb_spec (Width c)
              (x c + utf8.RuneCountInString (clipped c text)));
    unfold cursor_ok, int_dims, cursor_in_bounds, in_bounds;
    cbn [Width Height x y set_xy WriteString set_buf];
    rewrite FW, FH; unfold is_int in *; repeat split; lia.
Qed.

Lemma Set_keeps (c : Canvas) (tx ty char : Z) :
  cursor_ok c -> exists c', Set_ c tx ty char = Some c' /\ cursor_ok c'.
Proof.
  intros Hok. pose proof (Move_keeps c tx ty Hok) as HM.
  unfold Set_. destruct (Move c tx ty) as [c1 [e|]]; simpl in HM.
  - eauto.
  - now apply Write_keeps.
Qed.

Lemma WriteAt_keeps (c : Canvas) (tx ty : Z) (f b : Color) (sty : Z)
      (text : string) :
  cursor_ok c ->
  exists c', WriteAt c tx ty f b sty text = Some c' /\ cursor_ok c'.
Proof.
  intros Hok. pose proof (Move_keeps c tx ty Hok) as HM.
  unfold WriteAt. destruct (Move c tx ty) as [c1 [e|]]; simpl in HM.
  - eauto.
  - apply Write_keeps.
    eapply same_grid_ok; [apply SetBackground_grid|].
    eapply same_grid_ok; [apply SetForeground_grid|].
    eapply same_grid_ok; [apply SetStyle_grid|]. exact HM.
Qed.

Lemma write_blanks_keeps (n : nat) :
  forall c, cursor_ok c ->
            exists c', write_blanks n c = Some c' /\ cursor_ok c'.
Proof.
  induction n as [|n IH]; intros c Hok; simpl.
  - eauto.
  - destruct (Write_keeps c " " Hok) as (c1 & -> & Hok1). simpl.
    now apply IH.
Qed.

Lemma clear_rows_keeps (n : nat) :
  forall i c, cursor_ok c ->
              exists c', clear_rows n i c = Some c' /\ cursor_ok c'.
Proof.
  induction n as [|n IH]; intros i c Hok; simpl.
  - eauto.
  - destruct (write_blanks_keeps (Z.to_nat (Width c)) c Hok)
      as (c1 & -> & Hok1). simpl.
    apply IH. destruct (i <? int_sub (Height c1) 1).
    + now apply Move_keeps.
    + exact Hok1.
Qed.

Lemma Clear_keeps (c : Canvas) :
  cursor_ok c -> exists c', Clear c = Some c' /\ cursor_ok c'.
Proof.
  intros Hok. unfold Clear.
  destruct (clear_rows_keeps (Z.to_nat (Height c)) 0 (fst (Move c 0 0))
              (Move_keeps c 0 0 Hok)) as (c1 & -> & Hok1).
  simpl. eexists. split; [reflexivity|]. now apply Move_keeps.
Qed.

Lemma Flush_keeps (c : Canvas) : cursor_ok c -> cursor_ok (Flush c).
Proof.
  intros Hok. unfold Flush.
  apply (same_grid_ok
           (if CursorOnEnd c
            then fst (Move c (int_sub (Width c) 1) (int_sub (Height c) 1))
            else c)).
  - repeat split.
  - destruct (CursorOnEnd c); [now apply Move_keeps | exact Hok].
Qed.

Lemma step_keeps (o : op) :
  forall c, cursor_ok c -> exists c', step c o = Some c' /\ cursor_ok c'.
Proof.
  induction o; intros c Hok; simpl.
  - eexists; split; [reflexivity | now apply Move_keeps].
  - now apply Write_keeps.
  - now apply Set_keeps.
  - now apply WriteAt_keeps.
  - eexists; split; [reflexivity|].
    eapply same_grid_ok; [apply SetForeground_grid | exact Hok].
  - eexists; split; [reflexivity|].
    eapply same_grid_ok; [apply SetBackground_grid | exact Hok].
  - eexists; split; [reflexivity|].
    eapply same_grid_ok; [apply SetStyle_grid | exact Hok].
  - now apply Clear_keeps.
  - eexists; split; [reflexivity | now apply Flush_keeps].
  - now apply IHo.
  - eexists; split; [reflexivity|].
    apply (same_grid_ok c); [repeat split | exact Hok].
  - eexists; split; [reflexivity | exact Hok].
Qed.

Lemma run_keeps (ops : list op) :
  forall c, cursor_ok c -> exists c', run c ops = Some c' /\ cursor_ok c'.
Proof.
  induction ops as [|o ops IH]; intros c Hok; simpl.
  - eauto.
  - destruct (step_keeps o c Hok) as (c1 & -> & Hok1). simpl.
    now apply IH.
Qed.

(** *** The dimensions are never assigned *)

Lemma Move_dims (c : Canvas) (tx ty : Z) :
  same_dims c (fst (Move c tx ty)).
Proof.
  unfold same_dims, Move, move, write, errorF.
  repeat match goal with
         | |- context [if ?b then _ else _] => destruct b
         | |- context [match Logger ?c with _ => _ end] => destruct (Logger c)
         end; simpl; auto.
Qed.

Lemma same_dims_trans (a b c : Canvas) :
  same_dims a b -> same_dims b c -> same_dims a c.
Proof. unfold same_dims. intros [? ?] [? ?]. split; congruence. Qed.

Lemma same_grid_dims (c c' : Canvas) : same_grid c c' -> same_dims c c'.
Proof. intros (EW & EH & _). split; assumption. Qed.

Lemma Write_dims (c c' : Canvas) (text : string) :
  Write c text = Some c' -> same_dims c c'.
Proof.
  unfold Write, Write_clip.
  destruct (utf8.RuneCountInString text >? int_sub (Width c) (x c)).
  - destruct (slice_to text (int_sub (Width c) (x c))) as [t|]; simpl;
      [|discriminate].
    intros [= <-].
    pose proof (errorF_frame c ("string truncated: " ++ text)) as F.
    match goal with |- context [if ?b then _ else _] => destruct b end.
    + eapply same_dims_trans; [|apply Move_dims].
      split; simpl; apply F.
    + split; simpl; apply F.
  - simpl. intros [= <-].
    match goal with |- context [if ?b then _ else _] => destruct b end.
    + eapply same_dims_trans; [|apply Move_dims]. split; reflexivity.
    + split; reflexivity.
Qed.

Lemma Set_dims (c c' : Canvas) (tx ty char : Z) :
  Set_ c tx ty char = Some c' -> same_dims c c'.
Proof.
  unfold Set_. pose proof (Move_dims c tx ty) as HM.
  destruct (Move c tx ty) as [c1 [e|]]; simpl in HM.
  - now intros [= <-].
  - intros HW. eapply same_dims_trans; [exact HM|].
    eapply Write_dims; eassumption.
Qed.

Lemma WriteAt_dims (c c' : Canvas) (tx ty : Z) (f b : Color) (sty : Z)
      (text : string) :
  WriteAt c tx ty f b sty text = Some c' -> same_dims c c'.
Proof.
  unfold WriteAt. pose proof (Move_dims c tx ty) as HM.
  destruct (Move c tx ty) as [c1 [e|]]; simpl in HM.
  - now intros [= <-].
  - intros HW. eapply same_dims_trans; [exact HM|].
    eapply same_dims_trans; [|eapply Write_dims; eassumption].
    apply same_grid_dims.
    eapply same_grid_trans; [apply SetStyle_grid|].
    eapply same_grid_trans; [apply SetForeground_grid|].
    apply SetBackground_grid.
Qed.

Lemma write_blanks_dims (n : nat) :
  forall c c', write_blanks n c = Some c' -> same_dims c c'.
Proof.
  induction n as [|n IH]; intros c c'; simpl.
  - intros [= <-]. split; reflexivity.
  - destruct (Write c " ") as [c1|] eqn:E; simpl; [|discriminate].
    intros Hn. eapply same_dims_trans; [eapply Write_dims; eassumption|].
    now apply IH.
Qed.

Lemma clear_rows_dims (n : nat) :
  forall i c c', clear_rows n i c = Some c' -> same_dims c c'.
Proof.
  induction n as [|n IH]; intros i c c'; simpl.
  - intros [= <-]. split; reflexivity.
  - destruct (write_blanks (Z.to_nat (Width c)) c) as [c1|] eqn:E; simpl;
      [|discriminate].
    intros Hn. eapply same_dims_trans; [eapply write_blanks_dims; eassumption|].
    eapply same_dims_trans; [|eapply IH; eassumption].
    destruct (i <? int_sub (Height c1) 1);
      [apply Move_dims | split; reflexivity].
Qed.

Lemma Clear_dims (c c' : Canvas) : Clear c = Some c' -> same_dims c c'.
Proof.
  unfold Clear.
  destruct (clear_rows (Z.to_nat (Height c)) 0 (fst (Move c 0 0)))
    as [c1|] eqn:E; simpl; [|discriminate].
  intros [= <-].
  eapply same_dims_trans; [apply Move_dims|].
  eapply same_dims_trans; [eapply clear_rows_dims; eassumption|].
  apply Move_dims.
Qed.

Lemma Flush_dims (c : Canvas) : same_dims c (Flush c).
Proof.
  unfold Flush. destruct (CursorOnEnd c).
  - eapply same_dims_trans; [apply Move_dims | split; reflexivity].
  - split; reflexivity.
Qed.

Lemma step_dims (o : op) :
  forall c c', step c o = Some c' -> same_dims c c'.
Proof.
  induction o; intros c c'; simpl.
  - intros [= <-]. apply Move_dims.
  - apply Write_dims.
  - apply Set_dims.
  - apply WriteAt_dims.
  - intros [= <-]. apply same_grid_dims, SetForeground_grid.
  - intros [= <-]. apply same_grid_dims, SetBackground_grid.
  - intros [= <-]. apply same_grid_dims, SetStyle_grid.
  - apply Clear_dims.
  - intros [= <-]. apply Flush_dims.
  - apply IHo.
  - intros [= <-]. split; reflexivity.
  - intros [= <-]. split; reflexivity.
Qed.

Lemma run_dims (ops : list op) :
  forall c c', run c ops = Some c' ->
               Width c' = Width c /\ Height c' = Height c.
Proof.
  induction ops as [|o ops IH]; intros c c'; simpl.
  - intros [= <-]. split; reflexivity.
  - destruct (step c o) as [c1|] eqn:E; simpl; [|discriminate].
    intros Hr. destruct (step_dims o c c1 E) as [E1 E2].
    destruct (IH c1 c' Hr) as [E3 E4]. split; congruence.
Qed.

(** *** Construction *)

Lemma fill_blanks_grid (n : nat) :
  forall c, same_grid c (fill_blanks n c).
Proof.
  induction n as [|n IH]; intros c; simpl.
  - apply same_grid_refl.
  - eapply same_grid_trans; [apply (WriteString_grid c " ") | apply IH].
Qed.

Lemma fill_rows_grid (n : nat) :
  forall i background c, same_grid c (fill_rows n i background c).
Proof.
  induction n as [|n IH]; intros i background c; simpl.
  - apply same_grid_refl.
  - eapply same_grid_trans; [|apply IH].
    eapply same_grid_trans; [apply fill_blanks_grid|].
    destruct (i <? int_sub (Height (fill_blanks (Z.to_nat (Width c)) c)) 1).
    + eapply same_grid_trans; [apply SetBackground_grid|].
      eapply same_grid_trans; [apply WriteString_grid|].
      apply SetBackground_grid.
    + apply same_grid_refl.
Qed.

Lemma prefill_cursor (width height : Z) (background : Color) :
  is_int (height - 1) ->
  let c := NewCanvas_prefill width height background in
  Width c = width /\ Height c = height
  /\ x c = width /\ y c = height - 1 /\ CursorOnEnd c = false.
Proof.
  intros Hh. cbv zeta. unfold NewCanvas_prefill.
  match goal with |- context [set_xy ?c0 _ _] =>
    assert (G : same_grid (Canvas_literal width height background) c0) end.
  { eapply same_grid_trans; [|apply fill_rows_grid].
    eapply same_grid_trans; [apply SetBackground_grid | apply SetStyle_grid]. }
  destruct G as (GW & GH & _ & _ & GE).
  cbn [Width Height x y CursorOnEnd set_xy].
  unfold int_sub. rewrite (wrap_small _ Hh).
  rewrite GW, GH, GE. repeat split.
Qed.

Lemma first_Move_emits (width height : Z) (background : Color) :
  1 <= width <= max_int -> 1 <= height <= max_int ->
  let c := NewCanvas_prefill width height background in
  Move c 0 0
  = (set_xy (WriteString c (escape ++ "[" ++ Itoa width ++ "D"
                            ++ relative_motion (height - 1) 0 "B" "A"))
            0 0, None).
Proof.
  intros HW HH. cbv zeta.
  assert (Hh : is_int (height - 1))
    by (unfold is_int, min_int, max_int in *; lia).
  destruct (prefill_cursor width height background Hh)
    as (EW & EH & Ex & Ey & _).
  rewrite Move_accepts.
  - rewrite Ex, Ey. f_equal. f_equal. f_equal.
    unfold relative_motion at 1.
    destruct (Z.eqb_spec (0 - width) 0); [lia|].
    destruct (Z.ltb_spec 0 (0 - width)); [lia|].
    rewrite Z.abs_neq by lia.
    replace (- (0 - width)) with width by lia.
    now rewrite !append_assoc.
  - unfold int_dims. rewrite EW, EH.
    unfold is_int, min_int, max_int in *. lia.
  - rewrite Ex, EW. lia.
  - rewrite Ey, EH. lia.
  - unfold in_bounds. rewrite EW, EH. lia.
Qed.

Lemma NewCanvas_at_origin (width height : Z) (background : Color) :
  1 <= width <= max_int -> 1 <= height <= max_int ->
  let c := NewCanvas width height background in
  cursor_ok c /\ x c = 0 /\ y c = 0
  /\ Width c = width /\ Height c = height.
Proof.
  intros HW HH. cbv zeta.
  assert (Hh : is_int (height - 1))
    by (unfold is_int, min_int, max_int in *; lia).
  destruct (prefill_cursor width height background Hh)
    as (EW & EH & Ex & Ey & EE).
  unfold NewCanvas. rewrite first_Move_emits by assumption. cbn [fst].
  unfold Flush. cbn [CursorOnEnd set_xy WriteString set_buf].
  rewrite EE.
  unfold cursor_ok, int_dims, cursor_in_bounds, in_bounds.
  cbn [Width Height x y set_xy set_buf set_stdout WriteString].
  rewrite EW, EH. unfold is_int, min_int, max_int in *.
  repeat split; lia.
Qed.


(** C8. For a canvas built with [width >= 1] and
    [height >= 1]: inside [NewCanvas], just before the forced first
    [Move], the cached column is [width], one past the last valid
    column, so that this [Move] is not skipped and appends the motion
    back to column 0; the constructed canvas has its cursor at the
    origin; and after any sequence of public operations (guarded or
    not, assignments of [Logger] and [CursorOnEnd] included) every call
    has returned and the cached cursor is inside
    [0, Width) x [0, Height). *)
Theorem cursor_stays_in_bounds
  (width height : Z) (background : Color) (ops : list op) :
  1 <= width <= max_int -> 1 <= height <= max_int ->
  let pre := NewCanvas_prefill width height background in
  let c0 := NewCanvas width height background in
  (x pre = width /\ y pre = height - 1 /\ Width pre = width)
  /\ buf (fst (Move pre 0 0))
     = buf pre ++ escape ++ "[" ++ Itoa width ++ "D"
               ++ relative_motion (height - 1) 0 "B" "A"
  /\ (x c0 = 0 /\ y c0 = 0 /\ Width c0 = width /\ Height c0 = height)
  /\ exists c', run c0 ops = Some c'
                /\ Width c' = width /\ Height c' = height
                /\ 0 <= x c' < width /\ 0 <= y c' < height.
Proof.
  intros HW HH pre c0.
  assert (Hh : is_int (height - 1))
    by (unfold is_int, min_int, max_int in *; lia).
  destruct (prefill_cursor width height background Hh)
    as (EW & EH & Ex & Ey & _).
  destruct (NewCanvas_at_origin width height background HW HH)
    as (Hok & Hx & Hy & HcW & HcH).
  split; [unfold pre; auto|].
  split.
  { unfold pre. rewrite first_Move_emits by assumption. reflexivity. }
  split; [unfold c0; auto|].
  destruct (run_keeps ops c0 Hok) as (c' & Hrun & [_ [Hinx Hiny]]).
  destruct (run_dims ops c0 c' Hrun) as [DW DH].
  unfold c0 in DW, DH. rewrite HcW in DW. rewrite HcH in DH.
  rewrite DW in Hinx. rewrite DH in Hiny.
  exists c'. repeat split; solve [assumption | lia].
Qed.


(** ** Further properties of the operations *)

(** *** Move *)

Lemma Move_success (c : Canvas) (tx ty : Z) :
  snd (Move c tx ty) = None ->
  x (fst (Move c tx ty)) = tx /\ y (fst (Move c tx ty)) = ty.
Proof.
  unfold Move.
  destruct ((x c =? tx) && (y c =? ty)) eqn:E.
  - apply andb_true_iff in E. destruct E as [E1 E2].
    apply Z.eqb_eq in E1, E2. simpl. auto.
  - destruct ((tx >? int_sub (Width c) 1) || (tx <? 0)
              || (ty >? int_sub (Height c) 1) || (ty <? 0)); simpl.
    + discriminate.
    + auto.
Qed.

(** X1. Whatever the canvas and the target, [Move] has one of two
    outcomes.  Without error the cached cursor is the target, and a second
    [Move] to the same target is the no-op.  With an error, the error is
    [ErrorOutOfBounds] (never [ErrorTruncated]) and the cursor, buffer,
    colours, style and terminal output are those before the call. *)
Theorem Move_outcome (c : Canvas) (tx ty : Z) :
  let c' := fst (Move c tx ty) in
  match snd (Move c tx ty) with
  | None => x c' = tx /\ y c' = ty /\ Move c' tx ty = (c', None)
  | Some e =>
      e = ErrorOutOfBounds
      /\ x c' = x c /\ y c' = y c /\ buf c' = buf c
      /\ fg c' = fg c /\ bg c' = bg c /\ style c' = style c
      /\ stdout c' = stdout c
  end.
Proof.
  cbv zeta. destruct (snd (Move c tx ty)) as [e|] eqn:E.
  - destruct (Move_failure c tx ty e E) as [He Hc']. rewrite Hc'.
    pose proof (errorF_frame c
      ("out of bounds: (" ++ Itoa tx ++ "," ++ Itoa ty ++ ")")) as F.
    split; [exact He|]. repeat split; apply F.
  - destruct (Move_success c tx ty E) as [Ex Ey].
    split; [exact Ex|]. split; [exact Ey|].
    pose proof (Move_same (fst (Move c tx ty))) as HS.
    rewrite Ex, Ey in HS. exact HS.
Qed.

(** X2. A rejected [Move] reports through the logger only: without a
    logger the canvas is returned exactly as it was; with one, the only
    change is one more message, [[error] out of bounds: (x,y)] with the
    target printed in decimal. *)
Theorem rejected_Move_only_logs (c : Canvas) (tx ty : Z) :
  snd (Move c tx ty) = Some ErrorOutOfBounds ->
  match Logger c with
  | None => fst (Move c tx ty) = c
  | Some printed =>
      fst (Move c tx ty)
      = set_Logger c
          (Some (List.app printed
                   ["[error] out of bounds: (" ++ Itoa tx ++ "," ++ Itoa ty
                    ++ ")"]))
  end.
Proof.
  intros E. destruct (Move_failure c tx ty _ E) as [_ Hc']. rewrite Hc'.
  unfold errorF. destruct (Logger c); reflexivity.
Qed.

(** *** Write *)

(** X3. [Write] panics (slice bounds out of range) exactly when the
    remaining width [Width - x], computed in [int], is negative; the text
    plays no part.  In every other state it returns. *)
Theorem Write_panics_iff (c : Canvas) (text : string) :
  Write c text = None <-> int_sub (Width c) (x c) < 0.
Proof.
  unfold Write, Write_clip, slice_to.
  pose proof (RuneCount_nonneg text) as H0.
  pose proof (RuneCount_le_len text) as Hl.
  rewrite Z.gtb_ltb.
  destruct (Z.ltb_spec (int_sub (Width c) (x c)) (utf8.RuneCountInString text))
    as [Hlt|Hge].
  - destruct (Z.ltb_spec (int_sub (Width c) (x c)) 0) as [Hneg|Hpos]; simpl.
    + split; [intros _; exact Hneg | reflexivity].
    + destruct (Z.ltb_spec (len text) (int_sub (Width c) (x c))); [lia|].
      simpl. split; [discriminate | lia].
  - simpl. split; [discriminate | lia].
Qed.


Lemma Write_fits (c : Canvas) (text : string) :
  int_dims c -> cursor_in_bounds c ->
  utf8.RuneCountInString text <= Width c - x c ->
  Write c text =
    Some (if x c + utf8.RuneCountInString text >=? Width c
          then set_xy (WriteString c (text ++ escape ++ "[1D"))
                      (Width c - 1) (y c)
          else set_xy (WriteString c text)
                      (x c + utf8.RuneCountInString text) (y c)).
Proof.
  intros Hd Hc Hl.
  pose proof (Write_result c text Hd Hc) as HW. cbv zeta in HW.
  assert (Ec : clipped c text = text).
  { unfold clipped. rewrite Z.gtb_ltb.
    destruct (Z.ltb_spec (Width c - x c) (utf8.RuneCountInString text));
      [lia | reflexivity]. }
  assert (Ed : diagnosed c text = c).
  { unfold diagnosed. rewrite Z.gtb_ltb.
    destruct (Z.ltb_spec (Width c - x c) (utf8.RuneCountInString text));
      [lia | reflexivity]. }
  rewrite Ec, Ed in HW. exact HW.
Qed.

(** X4. A text that fits in the remaining columns is appended as it is
    and nothing is logged; the column advances by its rune count.  When
    the text ends on the last column the cursor stays there and the
    one-column step back [ESC[1D] follows the text in the buffer.  The
    rune count is the length for plain ASCII, and the number of runes
    for the encoding of a list of runes. *)
Theorem Write_fitting_text (c : Canvas) (text : string) :
  int_dims c -> cursor_in_bounds c ->
  utf8.RuneCountInString text <= Width c - x c ->
  Write c text =
    Some (if x c + utf8.RuneCountInString text >=? Width c
          then set_xy (WriteString c (text ++ escape ++ "[1D"))
                      (Width c - 1) (y c)
          else set_xy (WriteString c text)
                      (x c + utf8.RuneCountInString text) (y c))
  /\ (exists c',
        Write c text = Some c'
        /\ buf c' = buf c ++ text
                    ++ (if x c + utf8.RuneCountInString text >=? Width c
                        then escape ++ "[1D" else "")
        /\ x c' = Z.min (x c + utf8.RuneCountInString text) (Width c - 1)
        /\ y c' = y c /\ Logger c' = Logger c /\ stdout c' = stdout c)
  /\ (is_ascii text = true -> utf8.RuneCountInString text = len text)
  /\ (forall rs : list Z,
        text = encode_runes rs ->
        utf8.RuneCountInString text = Z.of_nat (List.length rs)).
Proof.
  intros Hd Hc Hl. pose proof (Write_fits c text Hd Hc Hl) as HW.
  split; [exact HW|]. split; [|split].
  - rewrite Z.geb_leb in HW. rewrite Z.geb_leb.
    destruct (Z.leb_spec (Width c) (x c + utf8.RuneCountInString text));
      eexists; (split; [exact HW|]);
      cbn [buf x y Logger stdout set_xy WriteString set_buf];
      rewrite ?append_nil_r; repeat split; lia.
  - apply RuneCount_ascii.
  - intros rs ->. apply RuneCount_encode_runes.
Qed.

(** X5. For a text of plain ASCII longer than the remaining columns [r],
    the byte slice is the truncation on whole characters: the buffer
    receives the first [r] characters followed by [ESC[1D], and the
    cursor ends on the last column of the same row. *)
Theorem Write_clips_ascii (c : Canvas) (text : string) :
  int_dims c -> cursor_in_bounds c ->
  is_ascii text = true -> len text > Width c - x c ->
  let r := Z.to_nat (Width c - x c) in
  exists c',
    Write c text = Some c'
    /\ buf c' = buf c ++ take r text ++ escape ++ "[1D"
    /\ take r text = take_runes r text
    /\ utf8.RuneCountInString (take r text) = Width c - x c
    /\ x c' = Width c - 1 /\ y c' = y c.
Proof.
  intros Hd Hc Ha Hlen r.
  pose proof (Write_result c text Hd Hc) as HW. cbv zeta in HW.
  destruct (diagnosed_frame c text) as (FW & FH & Fx & Fy & Fb).
  assert (Hcount : utf8.RuneCountInString text = len text).
  { unfold utf8.RuneCountInString, len. now rewrite count_from_ascii. }
  assert (Ec : clipped c text = take r text).
  { unfold clipped. rewrite Z.gtb_ltb, Hcount.
    destruct (Z.ltb_spec (Width c - x c) (len text)); [reflexivity | lia]. }
  assert (Er : utf8.RuneCountInString (take r text) = Width c - x c).
  { unfold utf8.RuneCountInString.
    rewrite count_from_ascii by now apply is_ascii_take.
    destruct Hc as [Hcx _]. unfold len in Hlen.
    rewrite length_take; unfold r; lia. }
  rewrite Ec, Er in HW.
  replace (x c + (Width c - x c)) with (Width c) in HW by lia.
  rewrite Z.geb_leb, Z.leb_refl in HW.
  eexists. split; [exact HW|].
  cbn [x y buf set_xy WriteString set_buf]. rewrite Fb.
  split; [reflexivity|].
  split; [unfold take_runes; now rewrite runes_from_ascii|].
  split; [exact Er|]. split; reflexivity.
Qed.

(** *** Set *)

Lemma Set_result (c : Canvas) (tx ty char : Z) :
  int_dims c -> cursor_in_bounds c -> in_bounds c tx ty ->
  let motion := relative_motion (x c) tx "C" "D"
                ++ relative_motion (y c) ty "B" "A" in
  Set_ c tx ty char =
    Some (if tx + 1 >=? Width c
          then set_xy (WriteString c (motion ++ utf8.string_of_rune char
                                      ++ escape ++ "[1D"))
                      (Width c - 1) ty
          else set_xy (WriteString c (motion ++ utf8.string_of_rune char))
                      (tx + 1) ty).
Proof.
  intros Hd Hc Ht. cbv zeta. unfold Set_.
  rewrite Move_in_bounds by assumption.
  rewrite Write_fits.
  - cbn [x y Width Height set_xy WriteString set_buf buf].
    rewrite string_of_rune_counts_one.
    destruct (tx + 1 >=? Width c);
      unfold set_xy, WriteString, set_buf; cbn; now rewrite !append_assoc.
  - exact Hd.
  - exact Ht.
  - cbn [x y Width Height set_xy WriteString set_buf buf].
    rewrite string_of_rune_counts_one. destruct Ht. lia.
Qed.

(** X6. [Set] at an in-bounds target, on a canvas whose cursor is in
    bounds, returns for every rune, valid or not: the buffer receives the
    motion to the target and the UTF-8 encoding of the rune (U+FFFD for an
    invalid one), which always counts as one column; the cursor ends one
    column right of the target, or on the target when that is the last
    column, in which case [ESC[1D] follows the character. *)
Theorem Set_writes_one_cell (c : Canvas) (tx ty char : Z) :
  int_dims c -> cursor_in_bounds c -> in_bounds c tx ty ->
  let motion := relative_motion (x c) tx "C" "D"
                ++ relative_motion (y c) ty "B" "A" in
  Set_ c tx ty char =
    Some (if tx + 1 >=? Width c
          then set_xy (WriteString c (motion ++ utf8.string_of_rune char
                                      ++ escape ++ "[1D"))
                      (Width c - 1) ty
          else set_xy (WriteString c (motion ++ utf8.string_of_rune char))
                      (tx + 1) ty)
  /\ (exists c',
        Set_ c tx ty char = Some c'
        /\ buf c' = buf c ++ motion ++ utf8.string_of_rune char
                    ++ (if tx + 1 >=? Width c then escape ++ "[1D" else "")
        /\ x c' = Z.min (tx + 1) (Width c - 1) /\ y c' = ty
        /\ Logger c' = Logger c)
  /\ utf8.string_of_rune char = encode_runes [char].
Proof.
  intros Hd Hc Ht. cbv zeta.
  pose proof (Set_result c tx ty char Hd Hc Ht) as HS. cbv zeta in HS.
  split; [exact HS|]. split; [|cbn; now rewrite append_nil_r].
  destruct Ht as [Htx Hty].
  rewrite Z.geb_leb in HS. rewrite Z.geb_leb.
  destruct (Z.leb_spec (Width c) (tx + 1));
    eexists; (split; [exact HS|]);
    cbn [buf x y Logger set_xy WriteString set_buf];
    rewrite ?append_nil_r, ?append_assoc; repeat split; lia.
Qed.


(** *** Colours and styles *)

Lemma set_style_eta (c : Canvas) : set_style c (style c) = c.
Proof. now destruct c. Qed.

Lemma set_fg_eta (c : Canvas) : set_fg c (fg c) = c.
Proof. now destruct c. Qed.

Lemma set_bg_eta (c : Canvas) : set_bg c (bg c) = c.
Proof. now destruct c. Qed.

Lemma setBgFg_fragment (c : Canvas) (clr : Color) (isbg : bool) :
  setBgFg c clr isbg = WriteString c (color_fragment clr isbg).
Proof.
  unfold setBgFg, color_fragment, palette_index.
  destruct (isDefault clr); rewrite !WriteString_twice, ?append_assoc;
    now destruct isbg.
Qed.

Lemma SetStyle_as_write (c : Canvas) (s : Z) :
  SetStyle c s = set_style (WriteString c (style_change c s)) s.
Proof.
  unfold style_change. destruct (Z.eqb_spec (style c) s) as [E|Hne].
  - subst s. now rewrite SetStyle_same, WriteString_nil, set_style_eta.
  - now apply SetStyle_changes.
Qed.

Lemma SetForeground_as_write (c : Canvas) (clr : Color) :
  SetForeground c clr = set_fg (WriteString c (fg_change c clr)) clr.
Proof.
  unfold SetForeground, fg_change.
  destruct (Color_eq_dec (fg c) clr) as [E|Hne].
  - subst clr. now rewrite WriteString_nil, set_fg_eta.
  - now rewrite setBgFg_fragment.
Qed.

Lemma SetBackground_as_write (c : Canvas) (clr : Color) :
  SetBackground c clr = set_bg (WriteString c (bg_change c clr)) clr.
Proof.
  unfold SetBackground, bg_change.
  destruct (Color_eq_dec (bg c) clr) as [E|Hne].
  - subst clr. now rewrite WriteString_nil, set_bg_eta.
  - now rewrite setBgFg_fragment.
Qed.

(** X7. Each setter is idempotent for every value, cached or not: the
    second of two consecutive calls with the same argument returns the
    canvas of the first, so it appends nothing. *)
Theorem setters_idempotent (c : Canvas) (clr : Color) (s : Z) :
  SetForeground (SetForeground c clr) clr = SetForeground c clr
  /\ SetBackground (SetBackground c clr) clr = SetBackground c clr
  /\ SetStyle (SetStyle c s) s = SetStyle c s.
Proof.
  split; [|split].
  - rewrite (SetForeground_as_write c clr).
    unfold SetForeground at 1. cbn [fg set_fg].
    destruct (Color_eq_dec clr clr) as [_|Hne]; [reflexivity | now elim Hne].
  - rewrite (SetBackground_as_write c clr).
    unfold SetBackground at 1. cbn [bg set_bg].
    destruct (Color_eq_dec clr clr) as [_|Hne]; [reflexivity | now elim Hne].
  - rewrite <- (SetStyle_caches c s) at 2. apply SetStyle_same.
Qed.

(** X8. A colour that is not the cached foreground makes [SetForeground]
    (channel 3) append exactly one fragment and cache the colour, and a
    colour that is not the cached background does the same for
    [SetBackground] (channel 4); the other channel, the style and the
    cursor stay as they were.  The default sentinel gives the reset
    [ESC[39m] / [ESC[49m] whatever [RGBA] and [Term256] hold; otherwise
    the fragment is [ESC[38;5;<n>m] / [ESC[48;5;<n>m], where [n] is
    [Term256] when [RGBA] is nil. *)
Theorem colour_change_appends_one_fragment
  (c : Canvas) (clr : Color) :
  (fg c <> clr ->
   SetForeground c clr = set_fg (WriteString c (color_fragment clr false)) clr
   /\ buf (SetForeground c clr) = buf c ++ color_fragment clr false
   /\ fg (SetForeground c clr) = clr
   /\ bg (SetForeground c clr) = bg c
   /\ style (SetForeground c clr) = style c
   /\ x (SetForeground c clr) = x c /\ y (SetForeground c clr) = y c)
  /\ (bg c <> clr ->
      SetBackground c clr
      = set_bg (WriteString c (color_fragment clr true)) clr
      /\ buf (SetBackground c clr) = buf c ++ color_fragment clr true
      /\ bg (SetBackground c clr) = clr
      /\ fg (SetBackground c clr) = fg c
      /\ style (SetBackground c clr) = style c
      /\ x (SetBackground c clr) = x c /\ y (SetBackground c clr) = y c)
  /\ (isDefault clr = true ->
      color_fragment clr false = escape ++ "[39m"
      /\ color_fragment clr true = escape ++ "[49m")
  /\ (isDefault clr = false -> RGBA clr = None ->
      color_fragment clr false
      = escape ++ "[38;5;" ++ Itoa (Term256 clr) ++ "m"
      /\ color_fragment clr true
         = escape ++ "[48;5;" ++ Itoa (Term256 clr) ++ "m"
      /\ decimal_of (Itoa (Term256 clr)) = Some (Term256 clr)).
Proof.
  split; [|split; [|split]].
  - intros Hf.
    assert (E : SetForeground c clr
                = set_fg (WriteString c (color_fragment clr false)) clr).
    { rewrite SetForeground_as_write. unfold fg_change.
      destruct (Color_eq_dec (fg c) clr); [contradiction | reflexivity]. }
    rewrite E. repeat split.
  - intros Hb.
    assert (E : SetBackground c clr
                = set_bg (WriteString c (color_fragment clr true)) clr).
    { rewrite SetBackground_as_write. unfold bg_change.
      destruct (Color_eq_dec (bg c) clr); [contradiction | reflexivity]. }
    rewrite E. repeat split.
  - intros Hd. unfold color_fragment. rewrite Hd. split; reflexivity.
  - intros Hd Hr. unfold color_fragment, palette_index. rewrite Hd, Hr.
    split; [reflexivity|]. split; [reflexivity | apply decimal_Itoa].
Qed.

(** X9. A style word that is not the cached one makes [SetStyle] append
    the codes of its bits in the fixed order reset (Normal), 1 (Bold),
    2 (Dim), 4 (Underlined), 5 (Blink), 7 (Inverted), 8 (Hidden), one per
    bit set, contradictory bits included, and cache the word; nothing else
    changes.  With the Normal bit the reset comes first, and a word with
    all seven bits appends all seven codes. *)
Theorem SetStyle_appends_codes_in_order (c : Canvas) (s : Z) :
  style c <> s ->
  SetStyle c s = set_style (WriteString c (style_fragments s)) s
  /\ (Z.land s StyleNormal <> 0 ->
      exists rest, style_fragments s = escape ++ "[0m" ++ rest)
  /\ (Z.land s attribute_bits = attribute_bits ->
      style_fragments s
      = escape ++ "[0m" ++ escape ++ "[1m" ++ escape ++ "[2m"
        ++ escape ++ "[4m" ++ escape ++ "[5m" ++ escape ++ "[7m"
        ++ escape ++ "[8m")
  /\ (buf (SetStyle c s)
      = buf c
        ++ (if Z.land s StyleNormal =? 0 then "" else escape ++ "[0m")
        ++ (if Z.land s StyleBold =? 0 then "" else escape ++ "[1m")
        ++ (if Z.land s StyleDim =? 0 then "" else escape ++ "[2m")
        ++ (if Z.land s StyleUnderlined =? 0 then "" else escape ++ "[4m")
        ++ (if Z.land s StyleBlink =? 0 then "" else escape ++ "[5m")
        ++ (if Z.land s StyleInverted =? 0 then "" else escape ++ "[7m")
        ++ (if Z.land s StyleHidden =? 0 then "" else escape ++ "[8m")
      /\ style (SetStyle c s) = s
      /\ fg (SetStyle c s) = fg c /\ bg (SetStyle c s) = bg c
      /\ x (SetStyle c s) = x c /\ y (SetStyle c s) = y c).
Proof.
  intros Hne.
  pose proof (SetStyle_changes c s Hne) as HS.
  split; [exact HS|]. split; [|split].
  - intros Hn. unfold style_fragments. unfold style_code at 1.
    destruct (Z.eqb_spec (Z.land s StyleNormal) 0); [contradiction|].
    eexists. rewrite append_assoc. reflexivity.
  - intros Hall.
    assert (Hbit : forall bit, Z.land attribute_bits bit = bit -> bit <> 0 ->
                               (Z.land s bit =? 0) = false).
    { intros bit Hb Hnz. apply Z.eqb_neq.
      rewrite <- Hb, Z.land_assoc, Hall, Hb. exact Hnz. }
    unfold style_fragments, style_code.
    rewrite !Hbit by (reflexivity || discriminate). reflexivity.
  - rewrite HS. repeat split.
Qed.


(** *** WriteAt *)

Lemma WriteString_set_xy (c : Canvas) (a b : Z) (s : string) :
  WriteString (set_xy c a b) s = set_xy (WriteString c s) a b.
Proof. reflexivity. Qed.

Lemma WriteString_set_style (c : Canvas) (v : Z) (s : string) :
  WriteString (set_style c v) s = set_style (WriteString c s) v.
Proof. reflexivity. Qed.

Lemma WriteString_set_fg (c : Canvas) (v : Color) (s : string) :
  WriteString (set_fg c v) s = set_fg (WriteString c s) v.
Proof. reflexivity. Qed.

Lemma WriteAt_result
  (c : Canvas) (tx ty : Z) (f b : Color) (sty : Z) (text : string) :
  int_dims c -> cursor_in_bounds c -> in_bounds c tx ty ->
  let motion := relative_motion (x c) tx "C" "D"
                ++ relative_motion (y c) ty "B" "A" in
  WriteAt c tx ty f b sty text
  = Write (set_bg (set_fg (set_style (set_xy
             (WriteString c (motion ++ style_change c sty ++ fg_change c f
                             ++ bg_change c b))
             tx ty) sty) f) b) text
  /\ WriteAt c tx ty (fg c) (bg c) (style c) text
     = Write (set_xy (WriteString c motion) tx ty) text.
Proof.
  intros Hd Hc Ht. cbv zeta. split.
  - unfold WriteAt. rewrite Move_in_bounds by assumption.
    rewrite SetBackground_as_write, SetForeground_as_write, SetStyle_as_write.
    set (m := relative_motion (x c) tx "C" "D"
              ++ relative_motion (y c) ty "B" "A").
    set (c1 := set_xy (WriteString c m) tx ty).
    change (style_change c1 sty) with (style_change c sty).
    set (c2 := set_style (WriteString c1 (style_change c sty)) sty).
    change (fg_change c2 f) with (fg_change c f).
    set (c3 := set_fg (WriteString c2 (fg_change c f)) f).
    change (bg_change c3 b) with (bg_change c b).
    unfold c3, c2, c1.
    rewrite WriteString_set_fg, WriteString_set_style, WriteString_set_xy.
    rewrite WriteString_set_style, WriteString_set_xy.
    rewrite WriteString_set_xy.
    rewrite !WriteString_twice, ?append_assoc. reflexivity.
  - unfold WriteAt. rewrite Move_in_bounds by assumption.
    set (c1 := set_xy (WriteString c (relative_motion (x c) tx "C" "D"
                                      ++ relative_motion (y c) ty "B" "A"))
                      tx ty).
    change (style c) with (style c1). rewrite SetStyle_same.
    change (fg c) with (fg c1). rewrite SetForeground_same.
    change (bg c) with (bg c1). rewrite SetBackground_same.
    reflexivity.
Qed.

Lemma diagnosed_attrs (c : Canvas) (text : string) :
  fg (diagnosed c text) = fg c /\ bg (diagnosed c text) = bg c
  /\ style (diagnosed c text) = style c
  /\ stdout (diagnosed c text) = stdout c.
Proof.
  unfold diagnosed.
  destruct (utf8.RuneCountInString text >? Width c - x c).
  - pose proof (errorF_frame c ("string truncated: " ++ text)) as F.
    repeat split; apply F.
  - repeat split.
Qed.

(** X10. [WriteAt] at an in-bounds target, on a canvas whose cursor is in
    bounds, is [Write] of the text on the canvas that received, in this
    order, the motion to the target, the style codes, the foreground
    fragment and the background fragment, each of the three being empty
    when the value is the cached one.  With the cached style and colours
    only the motion and the text are appended.  The call returns, and
    the buffer, the cursor and the cached style and colours of the result
    are spelled out. *)
Theorem WriteAt_appends_in_order
  (c : Canvas) (tx ty : Z) (f b : Color) (sty : Z) (text : string) :
  int_dims c -> cursor_in_bounds c -> in_bounds c tx ty ->
  let motion := relative_motion (x c) tx "C" "D"
                ++ relative_motion (y c) ty "B" "A" in
  (WriteAt c tx ty f b sty text
   = Write (set_bg (set_fg (set_style (set_xy
              (WriteString c (motion ++ style_change c sty ++ fg_change c f
                              ++ bg_change c b))
              tx ty) sty) f) b) text
   /\ WriteAt c tx ty (fg c) (bg c) (style c) text
      = Write (set_xy (WriteString c motion) tx ty) text)
  /\ (let kept := clipped (set_xy c tx ty) text in
      exists c',
        WriteAt c tx ty f b sty text = Some c'
        /\ buf c' = buf c ++ motion ++ style_change c sty ++ fg_change c f
                    ++ bg_change c b ++ kept
                    ++ (if tx + utf8.RuneCountInString kept >=? Width c
                        then escape ++ "[1D" else "")
        /\ x c' = Z.min (tx + utf8.RuneCountInString kept) (Width c - 1)
        /\ y c' = ty
        /\ fg c' = f /\ bg c' = b /\ style c' = sty).
Proof.
  intros Hd Hc Ht. cbv zeta.
  pose proof (WriteAt_result c tx ty f b sty text Hd Hc Ht) as HR.
  cbv zeta in HR. split; [exact HR|]. destruct HR as [HR _].
  set (m := relative_motion (x c) tx "C" "D"
            ++ relative_motion (y c) ty "B" "A") in *.
  set (pre := m ++ style_change c sty ++ fg_change c f ++ bg_change c b) in *.
  set (c4 := set_bg (set_fg (set_style (set_xy (WriteString c pre) tx ty)
                                       sty) f) b) in *.
  assert (Hd4 : int_dims c4) by exact Hd.
  assert (Hc4 : cursor_in_bounds c4) by exact Ht.
  pose proof (Write_result c4 text Hd4 Hc4) as HW. cbv zeta in HW.
  pose proof (clipped_fits c4 text Hc4) as Hfit.
  destruct (diagnosed_frame c4 text) as (_ & _ & _ & _ & Fb).
  destruct (diagnosed_attrs c4 text) as (Ff & Fg & Fs & _).
  change (clipped c4 text) with (clipped (set_xy c tx ty) text) in HW, Hfit.
  change (x c4) with tx in HW, Hfit. change (y c4) with ty in HW.
  change (Width c4) with (Width c) in HW, Hfit.
  change (buf c4) with (buf c ++ pre) in Fb.
  change (fg c4) with f in Ff. change (bg c4) with b in Fg.
  change (style c4) with sty in Fs.
  rewrite <- HR in HW.
  rewrite Z.geb_leb in HW. rewrite Z.geb_leb.
  destruct Ht as [Htx Hty].
  destruct (Z.leb_spec (Width c)
              (tx + utf8.RuneCountInString (clipped (set_xy c tx ty) text)));
    eexists; (split; [exact HW|]);
    cbn [buf x y fg bg style set_xy WriteString set_buf];
    rewrite Fb, Ff, Fg, Fs; unfold pre;
    rewrite ?append_nil_r, ?append_assoc; repeat split; lia.
Qed.

(** *** Clear *)

Lemma blanks_snoc (n : nat) : blanks n ++ " " = blanks (S n).
Proof. induction n as [|n IH]; simpl; [reflexivity | now rewrite IH]. Qed.

Lemma bind_assoc {A B C : Type} (m : option A) (f : A -> option B)
      (g : B -> option C) :
  (m >>= f) >>= g = m >>= (fun a => f a >>= g).
Proof. now destruct m. Qed.

Lemma write_blanks_snoc (n : nat) :
  forall c, write_blanks (S n) c
            = write_blanks n c >>= fun c' => Write c' " ".
Proof.
  induction n as [|n IH]; intros c.
  - simpl. now destruct (Write c " ").
  - change (write_blanks (S (S n)) c)
      with (Write c " " >>= write_blanks (S n)).
    change (write_blanks (S n) c) with (Write c " " >>= write_blanks n).
    rewrite bind_assoc. destruct (Write c " ") as [c1|]; simpl; [|reflexivity].
    apply IH.
Qed.

Lemma write_blanks_plain (n : nat) :
  forall c, int_dims c -> cursor_in_bounds c ->
            x c + Z.of_nat n < Width c ->
            write_blanks n c
            = Some (set_xy (WriteString c (blanks n))
                           (x c + Z.of_nat n) (y c)).
Proof.
  induction n as [|n IH]; intros c Hd Hc Hn.
  - simpl. rewrite WriteString_nil, Z.add_0_r. now destruct c.
  - assert (E1 : utf8.RuneCountInString " " = 1) by reflexivity.
    change (write_blanks (S n) c) with (Write c " " >>= write_blanks n).
    rewrite Write_fits by (trivial; rewrite E1; lia).
    rewrite E1, Z.geb_leb.
    destruct (Z.leb_spec (Width c) (x c + 1)); [lia|]. cbn [bind].
    rewrite IH.
    + unfold set_xy, WriteString, set_buf. cbn.
      rewrite append_assoc. do 2 f_equal. lia.
    + exact Hd.
    + destruct Hc as [Hcx Hcy]. split; cbn; lia.
    + cbn. lia.
Qed.

(** One row of [Clear]: from column 0, [Width] blanks and the step back. *)
Lemma write_blanks_row (c : Canvas) :
  cursor_ok c -> x c = 0 ->
  write_blanks (Z.to_nat (Width c)) c
  = Some (set_xy (WriteString c (blanks (Z.to_nat (Width c))
                                 ++ escape ++ "[1D"))
                 (Width c - 1) (y c)).
Proof.
  intros [Hd Hc] Hx. pose proof Hc as [Hcx Hcy].
  destruct (Z.to_nat (Width c)) as [|k] eqn:Ek; [lia|].
  rewrite write_blanks_snoc.
  rewrite write_blanks_plain by (trivial; lia). cbn [bind].
  assert (E1 : utf8.RuneCountInString " " = 1) by reflexivity.
  rewrite Write_fits.
  - cbn [x y Width set_xy WriteString set_buf buf]. rewrite E1, Z.geb_leb.
    destruct (Z.leb_spec (Width c) (x c + Z.of_nat k + 1)); [|lia].
    unfold set_xy, WriteString, set_buf. cbn [buf].
    rewrite <- blanks_snoc, !append_assoc. reflexivity.
  - exact Hd.
  - split; cbn; lia.
  - cbn [x y Width set_xy WriteString set_buf]. rewrite E1. lia.
Qed.

Lemma set_xy_twice (c : Canvas) (a b a' b' : Z) :
  set_xy (set_xy c a b) a' b' = set_xy c a' b'.
Proof. reflexivity. Qed.

Lemma motion_down (i : Z) : relative_motion i (i + 1) "B" "A" = escape ++ "[1B".
Proof.
  unfold relative_motion. replace (i + 1 - i) with 1 by lia. reflexivity.
Qed.

Lemma clear_rows_text (n : nat) :
  forall i c,
    cursor_ok c -> x c = 0 -> y c = i ->
    i + Z.of_nat (S n) = Height c ->
    clear_rows (S n) i c
    = Some (set_xy (WriteString c (clear_text (Width c) (S n)))
                   (Width c - 1) (Height c - 1)).
Proof.
  induction n as [|n IH]; intros i c Hok Hx Hy Hi;
    pose proof Hok as [[HdW HdH] [Hcx Hcy]];
    unfold is_int, min_int, max_int in HdW, HdH.
  - change (clear_rows 1 i c)
      with (write_blanks (Z.to_nat (Width c)) c >>= fun c1 =>
            clear_rows 0 (int_add i 1)
              (if i <? int_sub (Height c1) 1
               then fst (Move c1 0 (int_add i 1)) else c1)).
    rewrite write_blanks_row by assumption. cbn [bind].
    set (c1 := set_xy _ _ _).
    change (Height c1) with (Height c). unfold int_sub.
    rewrite wrap_small by (unfold is_int, min_int, max_int; lia).
    destruct (Z.ltb_spec i (Height c - 1)); [lia|].
    change (clear_rows 0 (int_add i 1) c1) with (Some c1).
    unfold c1. change (clear_text (Width c) 1)
      with (blanks (Z.to_nat (Width c)) ++ escape ++ "[1D" ++ "").
    rewrite !append_nil_r. replace (Height c - 1) with (y c) by lia.
    reflexivity.
  - change (clear_rows (S (S n)) i c)
      with (write_blanks (Z.to_nat (Width c)) c >>= fun c1 =>
            clear_rows (S n) (int_add i 1)
              (if i <? int_sub (Height c1) 1
               then fst (Move c1 0 (int_add i 1)) else c1)).
    rewrite write_blanks_row by assumption. cbn [bind].
    set (row := blanks (Z.to_nat (Width c)) ++ escape ++ "[1D").
    set (c1 := set_xy (WriteString c row) (Width c - 1) (y c)).
    change (Height c1) with (Height c). unfold int_sub, int_add.
    rewrite !wrap_small by (unfold is_int, min_int, max_int; lia).
    destruct (Z.ltb_spec i (Height c - 1)); [|lia].
    assert (Hok1 : cursor_ok c1).
    { split; [split; assumption|]. split.
      - change (x c1) with (Width c - 1). change (Width c1) with (Width c). lia.
      - change (y c1) with (y c). change (Height c1) with (Height c). lia. }
    rewrite Move_in_bounds;
      [ | apply Hok1 | apply Hok1
        | split; [change (Width c1) with (Width c)
                 | change (Height c1) with (Height c)]; lia ].
    cbn [fst]. change (x c1) with (Width c - 1). change (y c1) with (y c).
    rewrite Hy, motion_down.
    set (join := relative_motion (Width c - 1) 0 "C" "D" ++ escape ++ "[1B").
    set (c2 := set_xy (WriteString c1 join) 0 (i + 1)).
    rewrite (IH (i + 1) c2).
    + change (Width c2) with (Width c). change (Height c2) with (Height c).
      unfold c2, c1.
      rewrite !WriteString_set_xy, !set_xy_twice, !WriteString_twice.
      change (clear_text (Width c) (S (S n)))
        with (blanks (Z.to_nat (Width c)) ++ escape ++ "[1D"
              ++ relative_motion (Width c - 1) 0 "C" "D" ++ escape ++ "[1B"
              ++ clear_text (Width c) (S n)).
      unfold row, join. rewrite !append_assoc. reflexivity.
    + split; [split; assumption|]. split.
      * change (x c2) with 0. change (Width c2) with (Width c). lia.
      * change (y c2) with (i + 1). change (Height c2) with (Height c). lia.
    + reflexivity.
    + reflexivity.
    + change (Height c2) with (Height c). lia.
Qed.

Lemma Clear_result (c : Canvas) :
  int_dims c -> cursor_in_bounds c ->
  Clear c
  = Some (set_xy
            (WriteString c
               (relative_motion (x c) 0 "C" "D"
                ++ relative_motion (y c) 0 "B" "A"
                ++ clear_text (Width c) (Z.to_nat (Height c))
                ++ relative_motion (Width c - 1) 0 "C" "D"
                ++ relative_motion (Height c - 1) 0 "B" "A"))
            0 0).
Proof.
  intros Hd0 Hc0. assert (Hok : cursor_ok c) by (split; assumption).
  pose proof Hok as [Hd [Hcx Hcy]].
  pose proof Hd as [HdW HdH]. unfold is_int, min_int, max_int in HdW, HdH.
  unfold Clear.
  rewrite Move_in_bounds by (trivial; split; lia).
  cbn [fst]. destruct (Z.to_nat (Height c)) as [|n] eqn:En; [lia|].
  set (home := relative_motion (x c) 0 "C" "D"
               ++ relative_motion (y c) 0 "B" "A").
  set (c1 := set_xy (WriteString c home) 0 0).
  assert (Hok1 : cursor_ok c1).
  { split; [exact Hd|]. split.
    - change (x c1) with 0. change (Width c1) with (Width c). lia.
    - change (y c1) with 0. change (Height c1) with (Height c). lia. }
  rewrite (clear_rows_text n 0 c1 Hok1);
    [ | reflexivity | reflexivity | change (Height c1) with (Height c); lia ].
  cbn [bind]. change (Width c1) with (Width c).
  change (Height c1) with (Height c).
  set (body := clear_text (Width c) (S n)).
  set (c2 := set_xy (WriteString c1 body) (Width c - 1) (Height c - 1)).
  assert (Hok2 : cursor_ok c2).
  { split; [exact Hd|]. split.
    - change (x c2) with (Width c - 1). change (Width c2) with (Width c). lia.
    - change (y c2) with (Height c - 1). change (Height c2) with (Height c).
      lia. }
  rewrite Move_in_bounds;
    [ | apply Hok2 | apply Hok2
      | split; [change (Width c2) with (Width c)
               | change (Height c2) with (Height c)]; lia ].
  cbn [fst]. change (x c2) with (Width c - 1).
  change (y c2) with (Height c - 1).
  unfold c2, c1.
  rewrite !WriteString_set_xy, !set_xy_twice, !WriteString_twice.
  unfold home, body. rewrite !append_assoc. reflexivity.
Qed.

(** X11. On a canvas whose cursor is in bounds [Clear] returns, with the
    cursor at the origin and with dimensions, colours, style, logger and
    terminal output untouched.  The buffer receives the motion to the
    origin, then for each of the [Height] rows exactly [Width] blanks and
    the step back [ESC[1D], consecutive rows being joined by the motion to
    the start of the next row, and finally the motion from the bottom
    right corner back to the origin. *)
Theorem Clear_rewrites_every_cell (c : Canvas) :
  int_dims c -> cursor_in_bounds c ->
  Clear c
  = Some (set_xy
            (WriteString c
               (relative_motion (x c) 0 "C" "D"
                ++ relative_motion (y c) 0 "B" "A"
                ++ clear_text (Width c) (Z.to_nat (Height c))
                ++ relative_motion (Width c - 1) 0 "C" "D"
                ++ relative_motion (Height c - 1) 0 "B" "A"))
            0 0)
  /\ (exists c',
        Clear c = Some c'
        /\ buf c' = buf c
                    ++ relative_motion (x c) 0 "C" "D"
                    ++ relative_motion (y c) 0 "B" "A"
                    ++ clear_text (Width c) (Z.to_nat (Height c))
                    ++ relative_motion (Width c - 1) 0 "C" "D"
                    ++ relative_motion (Height c - 1) 0 "B" "A"
        /\ (x c', y c') = (0, 0)
        /\ Width c' = Width c /\ Height c' = Height c
        /\ fg c' = fg c /\ bg c' = bg c /\ style c' = style c
        /\ Logger c' = Logger c /\ stdout c' = stdout c)
  /\ (forall w : Z, 0 <= w ->
        clear_text w 2
        = blanks (Z.to_nat w) ++ escape ++ "[1D"
          ++ relative_motion (w - 1) 0 "C" "D" ++ escape ++ "[1B"
          ++ blanks (Z.to_nat w) ++ escape ++ "[1D"
        /\ len (blanks (Z.to_nat w)) = w).
Proof.
  intros Hd Hc. pose proof (Clear_result c Hd Hc) as HC.
  split; [exact HC|]. split.
  - eexists. split; [exact HC|]. repeat split.
  - intros w Hw. split.
    + cbn [clear_text]. now rewrite append_nil_r.
    + unfold len. rewrite <- (Z2Nat.id w Hw) at 2. f_equal.
      induction (Z.to_nat w) as [|n IH]; simpl; [reflexivity | now rewrite IH].
Qed.


(** *** NewCanvas *)

Lemma WriteString_set_bg (c : Canvas) (v : Color) (s : string) :
  WriteString (set_bg c v) s = set_bg (WriteString c s) v.
Proof. reflexivity. Qed.

Lemma set_bg_twice (c : Canvas) (u v : Color) :
  set_bg (set_bg c u) v = set_bg c v.
Proof. reflexivity. Qed.

Lemma set_bg_cached (c : Canvas) (t : string) :
  set_bg (WriteString c t) (bg c) = WriteString c t.
Proof. now destruct c. Qed.

Lemma buf_set_xy (c : Canvas) (a b : Z) : buf (set_xy c a b) = buf c.
Proof. reflexivity. Qed.

Lemma buf_WriteString (c : Canvas) (s : string) :
  buf (WriteString c s) = buf c ++ s.
Proof. reflexivity. Qed.

Lemma append_nil_l (s : string) : "" ++ s = s.
Proof. reflexivity. Qed.

Lemma fill_blanks_text (n : nat) :
  forall c, fill_blanks n c = WriteString c (blanks n).
Proof.
  induction n as [|n IH]; intros c; simpl.
  - now rewrite WriteString_nil.
  - now rewrite IH, WriteString_twice.
Qed.

(** Between two rows: reset, newline, set again; nothing but the newline
    when the background is the default. *)
Lemma separator_text (c : Canvas) :
  SetBackground (WriteString (SetBackground c ColorDefault) newline) (bg c)
  = WriteString c (row_separator (bg c)).
Proof.
  unfold row_separator.
  destruct (Color_eq_dec (bg c) ColorDefault) as [E|Hne].
  - rewrite <- E at 1. rewrite SetBackground_same.
    change (bg c) with (bg (WriteString c newline)) at 1.
    apply SetBackground_same.
  - unfold SetBackground at 2.
    destruct (Color_eq_dec (bg c) ColorDefault) as [E|_]; [contradiction|].
    rewrite setBgFg_fragment.
    set (c2 := WriteString _ newline).
    unfold SetBackground. change (bg c2) with ColorDefault.
    destruct (Color_eq_dec ColorDefault (bg c)) as [E|_];
      [symmetry in E; contradiction|].
    rewrite setBgFg_fragment. unfold c2.
    rewrite !WriteString_set_bg, set_bg_twice, !WriteString_twice.
    apply set_bg_cached.
Qed.

Lemma fill_rows_text (n : nat) :
  forall i c,
    is_int (Height c) -> 0 <= i -> i + Z.of_nat (S n) = Height c ->
    fill_rows (S n) i (bg c) c
    = WriteString c (prefill_rows (Width c) (bg c) (S n)).
Proof.
  induction n as [|n IH]; intros i c HdH Hi0 Hi;
    unfold is_int, min_int, max_int in HdH.
  - change (fill_rows 1 i (bg c) c)
      with (let c1 := fill_blanks (Z.to_nat (Width c)) c in
            if i <? int_sub (Height c1) 1
            then SetBackground
                   (WriteString (SetBackground c1 ColorDefault) newline) (bg c)
            else c1).
    cbv zeta. rewrite fill_blanks_text.
    change (Height (WriteString c (blanks (Z.to_nat (Width c)))))
      with (Height c).
    unfold int_sub. rewrite wrap_small by (unfold is_int, min_int, max_int; lia).
    destruct (Z.ltb_spec i (Height c - 1)); [lia|].
    change (prefill_rows (Width c) (bg c) 1)
      with (blanks (Z.to_nat (Width c)) ++ "").
    now rewrite append_nil_r.
  - change (fill_rows (S (S n)) i (bg c) c)
      with (let c1 := fill_blanks (Z.to_nat (Width c)) c in
            fill_rows (S n) (int_add i 1) (bg c)
              (if i <? int_sub (Height c1) 1
               then SetBackground
                      (WriteString (SetBackground c1 ColorDefault) newline)
                      (bg c)
               else c1)).
    cbv zeta. rewrite fill_blanks_text.
    set (c1 := WriteString c (blanks (Z.to_nat (Width c)))).
    change (Height c1) with (Height c). unfold int_sub, int_add.
    rewrite !wrap_small by (unfold is_int, min_int, max_int; lia).
    destruct (Z.ltb_spec i (Height c - 1)); [|lia].
    change (bg c) with (bg c1) at 2. rewrite separator_text.
    change (bg c1) with (bg c).
    set (c2 := WriteString c1 (row_separator (bg c))).
    change (bg c) with (bg c2) at 1.
    rewrite (IH (i + 1) c2).
    + change (Width c2) with (Width c). change (bg c2) with (bg c).
      unfold c2, c1. rewrite !WriteString_twice.
      change (prefill_rows (Width c) (bg c) (S (S n)))
        with (blanks (Z.to_nat (Width c))
              ++ row_separator (bg c)
              ++ prefill_rows (Width c) (bg c) (S n)).
      reflexivity.
    + change (Height c2) with (Height c).
      unfold is_int, min_int, max_int. lia.
    + lia.
    + change (Height c2) with (Height c). lia.
Qed.

Lemma has_percent_app (a b : string) :
  has_percent (a ++ b) = has_percent a || has_percent b.
Proof.
  induction a as [|ch a IH]; simpl; [reflexivity|].
  now rewrite IH, orb_assoc.
Qed.

Lemma has_percent_digits (d : Decimal.uint) :
  has_percent (NilEmpty.string_of_uint d) = false.
Proof. induction d; simpl; trivial. Qed.

Lemma has_percent_Itoa (n : Z) : has_percent (Itoa n) = false.
Proof.
  unfold Itoa, NilZero.string_of_int, NilZero.string_of_uint.
  destruct (Z.to_int n) as [d|d]; destruct d; simpl;
    trivial; apply has_percent_digits.
Qed.

Lemma has_percent_motion (curr given : Z) (f b : string) :
  has_percent f = false -> has_percent b = false ->
  has_percent (relative_motion curr given f b) = false.
Proof.
  intros Hf Hb. unfold relative_motion.
  destruct (given - curr =? 0); [reflexivity|].
  rewrite !has_percent_app, has_percent_Itoa.
  destruct (0 <? given - curr); now rewrite ?Hf, ?Hb.
Qed.

Lemma has_percent_blanks (n : nat) : has_percent (blanks n) = false.
Proof. induction n as [|n IH]; simpl; trivial. Qed.

Lemma has_percent_fragment (clr : Color) (isbg : bool) :
  has_percent (color_fragment clr isbg) = false.
Proof.
  unfold color_fragment. rewrite !has_percent_app.
  destruct isbg, (isDefault clr); simpl;
    rewrite ?has_percent_app, ?has_percent_Itoa; reflexivity.
Qed.

Lemma has_percent_separator (background : Color) :
  has_percent (row_separator background) = false.
Proof.
  unfold row_separator.
  destruct (Color_eq_dec background ColorDefault); [reflexivity|].
  rewrite !has_percent_app, !has_percent_fragment. reflexivity.
Qed.

Lemma has_percent_prefill_rows (w : Z) (background : Color) (n : nat) :
  has_percent (prefill_rows w background n) = false.
Proof.
  induction n as [|n IH]; [reflexivity|].
  change (prefill_rows w background (S n))
    with (blanks (Z.to_nat w)
          ++ match n with
             | O => ""
             | S _ => row_separator background ++ prefill_rows w background n
             end).
  rewrite has_percent_app, has_percent_blanks.
  destruct n; [reflexivity|].
  now rewrite has_percent_app, has_percent_separator, IH.
Qed.

(** X12. For [width >= 1] and [height >= 1], [NewCanvas] prints to the
    terminal, in one write, the background fragment (none when the
    background is the zero [Color], which is [ColorBlack]), the style
    reset, [height] rows of [width] blanks joined by the row separator
    (background reset, newline, background set again; only the newline
    for the default background) and the motion back to the origin.  The
    canvas it returns has an empty buffer, the cursor at the origin, the
    style Normal, the background cached, the zero foreground, no logger
    and the cursor-to-end option off.  The text holds no percent sign, so
    a printer that copies such formats sends it to the terminal as it
    is. *)
Theorem NewCanvas_prints_prefill (width height : Z) (background : Color) :
  1 <= width <= max_int -> 1 <= height <= max_int ->
  let text :=
    (if Color_eq_dec Color_zero background then ""
     else color_fragment background true)
    ++ escape ++ "[0m"
    ++ prefill_rows width background (Z.to_nat height)
    ++ escape ++ "[" ++ Itoa width ++ "D"
    ++ relative_motion (height - 1) 0 "B" "A" in
  NewCanvas width height background
  = mkCanvas width height None background false "" 0 0 Color_zero background
             StyleNormal [fmt_Printf text]
  /\ (Printf_verbatim -> fmt_Printf text = text).
Proof.
  intros HW HH. cbv zeta. split.
  2:{ intros HP. apply HP.
      rewrite !has_percent_app, has_percent_prefill_rows, has_percent_Itoa.
      rewrite has_percent_motion by reflexivity.
      destruct (Color_eq_dec Color_zero background);
        [reflexivity | now rewrite has_percent_fragment]. }
  assert (Hpre : NewCanvas_prefill width height background
                 = set_xy
                     (WriteString
                        (set_style
                           (set_bg (Canvas_literal width height background)
                                   background) StyleNormal)
                        ((if Color_eq_dec Color_zero background then ""
                          else color_fragment background true)
                         ++ escape ++ "[0m"
                         ++ prefill_rows width background (Z.to_nat height)))
                     width (height - 1)).
  { unfold NewCanvas_prefill.
    rewrite SetBackground_as_write, SetStyle_as_write.
    set (c0 := Canvas_literal width height background).
    set (init := bg_change c0 background).
    set (c1 := set_bg (WriteString c0 init) background).
    change (style_change c1 StyleNormal) with (escape ++ "[0m").
    set (c2 := set_style (WriteString c1 (escape ++ "[0m")) StyleNormal).
    change (Height c2) with height.
    destruct (Z.to_nat height) as [|n] eqn:En; [lia|].
    change background with (bg c2) at 1.
    rewrite (fill_rows_text n 0 c2);
      [ | change (Height c2) with height;
          unfold is_int, min_int, max_int in *; lia
        | lia
        | change (Height c2) with height; lia ].
    change (Width c2) with width. change (bg c2) with background.
    unfold int_sub.
    rewrite wrap_small by (unfold is_int, min_int, max_int in *; lia).
    unfold c2, c1.
    rewrite !WriteString_set_style, !WriteString_set_bg, !WriteString_twice.
    unfold init, bg_change. change (bg c0) with Color_zero.
    reflexivity. }
  unfold NewCanvas. rewrite first_Move_emits by assumption. cbn [fst].
  rewrite Hpre, WriteString_set_xy, set_xy_twice, WriteString_twice.
  rewrite Flush_plain by reflexivity.
  rewrite buf_set_xy, buf_WriteString.
  change (buf (set_style (set_bg (Canvas_literal width height background)
                                 background) StyleNormal)) with "".
  rewrite append_nil_l, !append_assoc. reflexivity.
Qed.


(** *** Flush *)

(** X13. When the pending buffer holds no percent sign, [Flush] on a
    canvas whose cursor is in bounds sends to the terminal, in one write,
    exactly the pending buffer, followed by the motion to the bottom
    right corner when the cursor-to-end option is on, and leaves the
    buffer empty; the cursor is then on that corner, and nothing else
    changes. *)
Theorem Flush_writes_pending_text (c : Canvas) :
  Printf_verbatim -> int_dims c -> cursor_in_bounds c ->
  has_percent (buf c) = false ->
  let tail :=
    if CursorOnEnd c
    then relative_motion (x c) (Width c - 1) "C" "D"
         ++ relative_motion (y c) (Height c - 1) "B" "A"
    else "" in
  let c1 :=
    if CursorOnEnd c then set_xy c (Width c - 1) (Height c - 1) else c in
  Flush c = set_buf (set_stdout c1 (List.app (stdout c) [buf c ++ tail])) "".
Proof.
  intros HP Hd Hc Hb. cbv zeta. unfold Flush.
  destruct (CursorOnEnd c) eqn:E.
  - pose proof Hd as [HdW HdH]. pose proof Hc as [Hcx Hcy].
    unfold is_int, min_int, max_int in HdW, HdH.
    unfold int_sub.
    rewrite !wrap_small by (unfold is_int, min_int, max_int; lia).
    rewrite Move_in_bounds by (trivial; split; lia).
    cbn [fst]. rewrite buf_set_xy, buf_WriteString.
    rewrite HP.
    + reflexivity.
    + rewrite !has_percent_app, Hb, !has_percent_motion; reflexivity.
  - rewrite (HP _ Hb), append_nil_r. reflexivity.
Qed.


(** X14. A text with more runes than columns remain is cut to the
    remaining width in bytes: the buffer receives exactly the first
    [Width - x] bytes of the text, followed by [ESC[1D] when they reach
    the right edge.  The condition is reported to the logger only: with a
    logger, exactly one message [[error] string truncated: <text>]
    carrying the whole original text is added; without one, nothing is
    recorded.  [Write] still returns and the cursor stays on the same
    row. *)
Theorem Write_reports_truncation (c : Canvas) (text : string) :
  int_dims c -> cursor_in_bounds c ->
  utf8.RuneCountInString text > Width c - x c ->
  let kept := take (Z.to_nat (Width c - x c)) text in
  exists c',
    Write c text = Some c'
    /\ buf c' = buf c ++ kept
                ++ (if x c + utf8.RuneCountInString kept >=? Width c
                    then escape ++ "[1D" else "")
    /\ len kept = Width c - x c
    /\ Logger c'
       = match Logger c with
         | None => None
         | Some printed =>
             Some (List.app printed ["[error] string truncated: " ++ text])
         end
    /\ y c' = y c /\ stdout c' = stdout c.
Proof.
  intros Hd Hc Hl. cbv zeta.
  pose proof (Write_result c text Hd Hc) as HW. cbv zeta in HW.
  assert (Ec : clipped c text = take (Z.to_nat (Width c - x c)) text).
  { unfold clipped. rewrite Z.gtb_ltb.
    destruct (Z.ltb_spec (Width c - x c) (utf8.RuneCountInString text));
      [reflexivity | lia]. }
  assert (Ed : diagnosed c text = errorF c ("string truncated: " ++ text)).
  { unfold diagnosed. rewrite Z.gtb_ltb.
    destruct (Z.ltb_spec (Width c - x c) (utf8.RuneCountInString text));
      [reflexivity | lia]. }
  assert (Elen : len (take (Z.to_nat (Width c - x c)) text) = Width c - x c).
  { pose proof (RuneCount_le_len text) as Hlen. destruct Hc as [Hcx _].
    unfold len in *. rewrite length_take by lia. lia. }
  rewrite Ec, Ed in HW.
  pose proof (errorF_frame c ("string truncated: " ++ text)) as F.
  destruct F as (_ & _ & _ & _ & Fb & _ & _ & _ & Fo & _).
  assert (FL : Logger (errorF c ("string truncated: " ++ text))
               = match Logger c with
                 | None => None
                 | Some printed =>
                     Some (List.app printed
                             ["[error] string truncated: " ++ text])
                 end).
  { unfold errorF. destruct (Logger c) eqn:EL; [reflexivity | exact EL]. }
  destruct (x c + utf8.RuneCountInString
                    (take (Z.to_nat (Width c - x c)) text) >=? Width c).
  - eexists. split; [exact HW|].
    cbn [buf y Logger stdout set_xy WriteString set_buf].
    rewrite Fb, FL, Fo. repeat split. exact Elen.
  - eexists. split; [exact HW|].
    cbn [buf y Logger stdout set_xy WriteString set_buf].
    rewrite Fb, FL, Fo, append_nil_r. repeat split. exact Elen.
Qed.

End CanvasModel.

(** * Instances and concrete runs *)

Lemma Printf_plain_verbatim : Printf_verbatim Printf_plain.
Proof.
  intros s. induction s as [|a s IH]; simpl; [reflexivity|].
  intros Hs. apply orb_false_iff in Hs. destruct Hs as [Ha Hs].
  rewrite Ha, (IH Hs). reflexivity.
Qed.

Lemma Printf_plain_missing : Printf_missing Printf_plain.
Proof.
  intros s. induction s as [|a s IH]; [reflexivity|].
  intros Hs. simpl in Hs. apply orb_false_iff in Hs. destruct Hs as [Ha Hs].
  change ((String a s) ++ "%d") with (String a (s ++ "%d")).
  cbn [Printf_plain]. rewrite Ha, (IH Hs). reflexivity.
Qed.

(** The canvases of the runs below: the palette of xterm and the plain
    printer. *)
Local Abbreviation new_canvas :=
  (NewCanvas (T := color_RGBA) xterm256 Printf_plain).

Ltac split_all :=
  repeat match goal with |- _ /\ _ => split end.

Ltac by_evaluation :=
  split_all; vm_compute; split_all;
  solve [ reflexivity | intros; discriminate ].

(** The scenario of the specification: a 10x5 canvas with the default
    background, [Set(3, 2, 'X')], then [Flush]. *)
Example scenario_Set_then_Flush :
  exists c, Set_ (new_canvas 10 5 ColorDefault) 3 2 88 = Some c
            /\ buf c = escape ++ "[3C" ++ escape ++ "[2BX"
            /\ (x c, y c) = (4, 2)
            /\ buf (Flush Printf_plain c) = "".
Proof. eexists. by_evaluation. Qed.

Example rune_counts :
  utf8.RuneCountInString (bullet ++ "a" ++ bullet) = 3
  /\ utf8.RuneCountInString (take 2 bullet) = 2
  /\ utf8.string_of_rune 8226 = bullet
  /\ utf8.string_of_rune 55296 = utf8.string_of_rune utf8.RuneError.
Proof. by_evaluation. Qed.

Example Itoa_samples : Itoa 0 = "0" /\ Itoa 42 = "42" /\ Itoa (-7) = "-7".
Proof. by_evaluation. Qed.

Example pure_red_resolves_to_9 :
  Palette.Index xterm256 (opaque 255 0 0) = 9
  /\ nth_error xterm256 196 = Some (opaque 255 0 0).
Proof. by_evaluation. Qed.

Lemma Move_emits_relative_motion_witness :
  let c := new_canvas 10 5 ColorDefault in
  buf c = ""
  /\ snd (Move c 3 2) = None
  /\ buf (fst (Move c 3 2)) = escape ++ "[3C" ++ escape ++ "[2B"
  /\ (x (fst (Move c 3 2)), y (fst (Move c 3 2))) = (3, 2)
  /\ buf (fst (Move (fst (Move c 3 2)) 1 2))
     = escape ++ "[3C" ++ escape ++ "[2B" ++ escape ++ "[2D".
Proof.
  pose proof (Move_emits_relative_motion (new_canvas 10 5 ColorDefault) 3 2
                ltac:(by_evaluation) ltac:(by_evaluation)
                ltac:(by_evaluation)) as H1.
  pose proof (Move_emits_relative_motion
                (fst (Move (new_canvas 10 5 ColorDefault) 3 2)) 1 2
                ltac:(by_evaluation) ltac:(by_evaluation)
                ltac:(by_evaluation)) as H2.
  cbv zeta in H1, H2.
  destruct H1 as (Hs & Hb & _ & [Hx Hy] & _).
  destruct H2 as (_ & Hb2 & _).
  cbv zeta. split; [by_evaluation|]. split; [exact Hs|].
  split; [rewrite Hb; vm_compute; reflexivity|].
  split; [rewrite Hx, Hy; reflexivity|].
  rewrite Hb2, Hb. vm_compute. reflexivity.
Defined.

Lemma Move_out_of_bounds_witness :
  let c := new_canvas 3 4 ColorGreen in
  (snd (Move c 1 10) = Some ErrorOutOfBounds
   /\ x (fst (Move c 1 10)) = x c
   /\ y (fst (Move c 1 10)) = y c
   /\ buf (fst (Move c 1 10)) = buf c)
  /\ Move c (x c) (y c) = (c, None).
Proof.
  apply (Move_out_of_bounds (new_canvas 3 4 ColorGreen) 1 10);
    [by_evaluation | by_evaluation | by_evaluation | |].
  - left. by_evaluation.
  - right. right. right. by_evaluation.
Defined.

(** C2 does not extend to a target that is the cached cursor position:
    on the canvas of [NewCanvas(0, 1, _)] the target (0, 0) has
    [0 >= Width], yet [Move(0, 0)] is the no-op and returns no error. *)
Lemma Move_noop_precedes_bounds_check :
  let c := new_canvas 0 1 ColorDefault in
  0 >= Width c
  /\ Move c 0 0 = (c, None)
  /\ ~ (forall (width height : Z) (background : Color) (tx ty : Z),
          let c := new_canvas width height background in
          tx < 0 \/ tx >= Width c \/ ty < 0 \/ ty >= Height c ->
          snd (Move c tx ty) = Some ErrorOutOfBounds).
Proof.
  cbv zeta. split; [by_evaluation|]. split; [by_evaluation|].
  intros Hall.
  assert (Hb : 0 < 0 \/ 0 >= Width (new_canvas 0 1 ColorDefault)
               \/ 0 < 0 \/ 0 >= Height (new_canvas 0 1 ColorDefault))
    by (right; left; by_evaluation).
  specialize (Hall 0 1 ColorDefault 0 0 Hb).
  vm_compute in Hall. discriminate Hall.
Qed.

Lemma Write_advances_and_clamps_witness :
  let c := fst (Move (new_canvas 3 4 ColorGreen) 1 1) in
  let d := new_canvas 10 5 ColorDefault in
  (exists c',
      Write c "ello" = Some c'
      /\ buf c' = buf c ++ "el" ++ escape ++ "[1D"
      /\ (x c', y c') = (2, 1))
  /\ (exists d',
        Write d (bullet ++ "a" ++ bullet) = Some d'
        /\ buf d' = bullet ++ "a" ++ bullet
        /\ (x d', y d') = (3, 0)).
Proof.
  cbv zeta. split.
  - destruct (Write_advances_and_clamps
                (fst (Move (new_canvas 3 4 ColorGreen) 1 1)) "ello"
                ltac:(by_evaluation) ltac:(by_evaluation))
      as (c' & HW & Hb & Hy & Hx & _).
    exists c'. split; [exact HW|].
    split; [rewrite Hb; vm_compute; reflexivity|].
    rewrite Hx, Hy. vm_compute. reflexivity.
  - destruct (Write_advances_and_clamps
                (new_canvas 10 5 ColorDefault) (bullet ++ "a" ++ bullet)
                ltac:(by_evaluation) ltac:(by_evaluation))
      as (d' & HW & Hb & Hy & _ & _ & _ & _ & _ & _ & Hr).
    destruct (Hr [8226; 97; 8226] ltac:(by_evaluation) ltac:(by_evaluation))
      as [Hk Hx].
    exists d'. split; [exact HW|].
    split; [rewrite Hb; vm_compute; reflexivity|].
    rewrite Hx, Hy. vm_compute. reflexivity.
Defined.

Lemma composite_stops_on_failed_Move_witness :
  let c := new_canvas 3 4 ColorGreen in
  Set_ c 1 10 72 = Some (fst (Move c 1 10))
  /\ WriteAt xterm256 c 1 10 ColorRed ColorDefault StyleBold "x"
     = Some (fst (Move c 1 10))
  /\ buf (fst (Move c 1 10)) = buf c.
Proof.
  destruct (composite_stops_on_failed_Move xterm256
              (new_canvas 3 4 ColorGreen) 1 10 72 ColorRed ColorDefault
              StyleBold "x") as (HS & HW & HB & _).
  - by_evaluation.
  - cbv zeta. split; [exact HS|]. split; [exact HW | exact HB].
Defined.

Lemma rgb_resolves_to_nearest_entry_witness :
  let c := new_canvas 3 4 ColorGreen in
  let red := mkColor (Some (opaque 255 0 0)) 0 false in
  buf c = ""
  /\ buf (SetBackground xterm256 c red) = escape ++ "[48;5;9m"
  /\ buf (SetForeground xterm256 c red) = escape ++ "[38;5;9m"
  /\ nth_error xterm256 196 = Some (opaque 255 0 0)
  /\ map (Palette.Index xterm256) system16
     = [0; 1; 2; 3; 4; 5; 6; 7; 8; 9; 10; 11; 12; 13; 14; 15]
  /\ map (fun e => buf (SetForeground xterm256 c (mkColor (Some e) 0 false)))
         system16
     = map (fun k => escape ++ "[38;5;" ++ k ++ "m")
           [ "0"; "1"; "2"; "3"; "4"; "5"; "6"; "7"; "8"; "9"; "10"; "11";
             "12"; "13"; "14"; "15" ].
Proof.
  assert (Hp : xterm256 <> []) by (intros E; discriminate E).
  destruct (rgb_resolves_to_nearest_entry xterm256
              (new_canvas 3 4 ColorGreen) (opaque 255 0 0) 0 true Hp)
    as (n & e & _ & _ & _ & _ & _ & _ & Hfg & Hbg & Hprim & _).
  assert (En : n = 9%nat).
  { apply (Hprim 9%nat (opaque 255 0 0)); [reflexivity | reflexivity |].
    intros j w Hj Hw.
    do 9 (destruct j as [|j];
          [injection Hw as <-; vm_compute; reflexivity|]).
    lia. }
  subst n.
  destruct (Hfg ltac:(by_evaluation)) as [Hf _].
  destruct (Hbg ltac:(by_evaluation)) as [Hb _].
  cbv zeta. split; [by_evaluation|].
  split; [rewrite Hb; vm_compute; reflexivity|].
  split; [rewrite Hf; vm_compute; reflexivity|].
  split; by_evaluation.
Defined.

Lemma SetStyle_blank_overwrites_cache_witness :
  let c := new_canvas 3 4 ColorGreen in
  style c = StyleNormal
  /\ buf (SetStyle c StyleNoChange) = buf c
  /\ style (SetStyle c StyleNoChange) = StyleNoChange
  /\ buf (SetStyle (SetStyle c StyleNoChange) StyleNormal)
     = buf c ++ escape ++ "[0m".
Proof.
  destruct (SetStyle_blank_overwrites_cache
              (new_canvas 3 4 ColorGreen) StyleNoChange)
    as (_ & Hb & Hs & Hre & _).
  - by_evaluation.
  - by_evaluation.
  - split; [reflexivity|]. split; [exact Hb|]. split; [exact Hs|].
    exact Hre.
Defined.

Lemma Flush_prints_buffer_as_format_witness :
  exists c,
    Write (new_canvas 10 1 ColorDefault) "hi%d" = Some c
    /\ buf c = "hi%d"
    /\ stdout (Flush Printf_plain c) = List.app (stdout c) ["hi%!d(MISSING)"]
    /\ stdout (Flush Printf_plain c) <> List.app (stdout c) [buf c]
    /\ buf (Flush Printf_plain c) = "".
Proof.
  exact (Flush_prints_buffer_as_format xterm256 Printf_plain
           Printf_plain_missing).
Defined.

Lemma cursor_stays_in_bounds_witness :
  exists c',
    run xterm256 Printf_plain (new_canvas 3 4 ColorGreen)
        [ OpAssignCursorOnEnd true; OpSet 1 1 72; OpWrite "ello"; OpFlush;
          OpMove 1 10; OpGuarded OpClear;
          OpWriteAt 2 3 ColorRed ColorDefault StyleBold bullet ]
    = Some c'
    /\ Width c' = 3 /\ Height c' = 4
    /\ 0 <= x c' < 3 /\ 0 <= y c' < 4.
Proof.
  destruct (cursor_stays_in_bounds xterm256 Printf_plain 3 4 ColorGreen
              [ OpAssignCursorOnEnd true; OpSet 1 1 72; OpWrite "ello";
                OpFlush; OpMove 1 10; OpGuarded OpClear;
                OpWriteAt 2 3 ColorRed ColorDefault StyleBold bullet ])
    as (_ & _ & _ & Hrun).
  - by_evaluation.
  - by_evaluation.
  - exact Hrun.
Defined.

(** C8 does not extend to a canvas without columns: [NewCanvas(0, 1, _)]
    puts the cursor at (0, 0) before the forced first [Move], which is
    then skipped as a no-op, and the constructed canvas keeps a cursor
    column that is not below its width. *)
Lemma zero_width_canvas_breaks_cursor_range :
  let pre := NewCanvas_prefill (T := color_RGBA) xterm256 0 1 ColorDefault in
  let c := new_canvas 0 1 ColorDefault in
  (x pre, y pre) = (0, 0)
  /\ Move pre 0 0 = (pre, None)
  /\ (Width c, x c) = (0, 0)
  /\ ~ (forall (width height : Z) (background : Color) (ops : list op)
               (c' : Canvas),
          run xterm256 Printf_plain (new_canvas width height background) ops
          = Some c' ->
          0 <= x c' < Width c' /\ 0 <= y c' < Height c').
Proof.
  cbv zeta. split; [by_evaluation|]. split; [by_evaluation|].
  split; [by_evaluation|].
  intros Hall.
  destruct (Hall 0 1 ColorDefault [] _ eq_refl) as [[_ Hlt] _].
  vm_compute in Hlt. discriminate Hlt.
Qed.

(** ** Concrete runs of the further properties *)

Ltac conclude_with H := vm_compute in H; vm_compute; exact H.

Lemma rejected_Move_only_logs_witness :
  let c := set_Logger (new_canvas 3 4 ColorGreen) (Some []) in
  fst (Move c 1 10)
  = set_Logger c (Some ["[error] out of bounds: (1,10)"]).
Proof.
  assert (H := rejected_Move_only_logs
                 (set_Logger (new_canvas 3 4 ColorGreen) (Some [])) 1 10
                 ltac:(by_evaluation)).
  conclude_with H.
Defined.

Lemma Write_fitting_text_witness :
  let c := new_canvas 10 5 ColorDefault in
  let d := fst (Move c 5 0) in
  (exists c',
      Write c "hello" = Some c'
      /\ buf c = "" /\ buf c' = "hello" /\ (x c', y c') = (5, 0))
  /\ (exists d',
        Write d (bullet ++ "tick") = Some d'
        /\ buf d' = buf d ++ bullet ++ "tick" ++ escape ++ "[1D"
        /\ (x d', y d') = (9, 0))
  /\ utf8.RuneCountInString "hello" = 5
  /\ utf8.RuneCountInString (bullet ++ "tick") = 5.
Proof.
  destruct (Write_fitting_text (new_canvas 10 5 ColorDefault) "hello"
              ltac:(by_evaluation) ltac:(by_evaluation)
              ltac:(by_evaluation))
    as (_ & (c' & HW & Hb & Hx & Hy & _) & Ha & _).
  destruct (Write_fitting_text
              (fst (Move (new_canvas 10 5 ColorDefault) 5 0))
              (bullet ++ "tick")
              ltac:(by_evaluation) ltac:(by_evaluation)
              ltac:(by_evaluation))
    as (_ & (d' & HW' & Hb' & Hx' & Hy' & _) & _ & Hr).
  cbv zeta. split; [|split; [|split]].
  - exists c'. split; [exact HW|]. split; [by_evaluation|].
    split; [rewrite Hb; vm_compute; reflexivity|].
    rewrite Hx, Hy. vm_compute. reflexivity.
  - exists d'. split; [exact HW'|].
    split; [rewrite Hb'; vm_compute; reflexivity|].
    rewrite Hx', Hy'. vm_compute. reflexivity.
  - rewrite (Ha ltac:(by_evaluation)). vm_compute. reflexivity.
  - rewrite (Hr [8226; 116; 105; 99; 107] ltac:(by_evaluation)).
    vm_compute. reflexivity.
Defined.

Lemma Write_clips_ascii_witness :
  let c := fst (Move (new_canvas 3 4 ColorGreen) 1 1) in
  exists c',
    Write c "ello" = Some c'
    /\ buf c' = buf c ++ "el" ++ escape ++ "[1D"
    /\ (x c', y c') = (2, 1).
Proof.
  destruct (Write_clips_ascii (fst (Move (new_canvas 3 4 ColorGreen) 1 1))
              "ello" ltac:(by_evaluation) ltac:(by_evaluation)
              ltac:(by_evaluation) ltac:(by_evaluation))
    as (c' & HW & Hb & _ & _ & Hx & Hy).
  exists c'. split; [exact HW|]. split; [exact Hb|].
  rewrite Hx, Hy. reflexivity.
Defined.

Lemma Set_writes_one_cell_witness :
  let c := new_canvas 10 5 ColorDefault in
  buf c = ""
  /\ (exists c',
        Set_ c 9 2 8226 = Some c'
        /\ buf c' = escape ++ "[9C" ++ escape ++ "[2B" ++ bullet
                    ++ escape ++ "[1D"
        /\ (x c', y c') = (9, 2))
  /\ (exists c',
        Set_ c 3 2 88 = Some c'
        /\ buf c' = escape ++ "[3C" ++ escape ++ "[2B" ++ "X"
        /\ (x c', y c') = (4, 2)).
Proof.
  pose proof (Set_writes_one_cell (new_canvas 10 5 ColorDefault) 9 2 8226
                ltac:(by_evaluation) ltac:(by_evaluation)
                ltac:(by_evaluation)) as H1.
  pose proof (Set_writes_one_cell (new_canvas 10 5 ColorDefault) 3 2 88
                ltac:(by_evaluation) ltac:(by_evaluation)
                ltac:(by_evaluation)) as H2.
  cbv zeta in H1, H2.
  destruct H1 as (_ & (c1 & HS1 & Hb1 & Hx1 & Hy1 & _) & _).
  destruct H2 as (_ & (c2 & HS2 & Hb2 & Hx2 & Hy2 & _) & _).
  cbv zeta. split; [by_evaluation|]. split.
  - exists c1. split; [exact HS1|].
    split; [rewrite Hb1; vm_compute; reflexivity|].
    rewrite Hx1, Hy1. vm_compute. reflexivity.
  - exists c2. split; [exact HS2|].
    split; [rewrite Hb2; vm_compute; reflexivity|].
    rewrite Hx2, Hy2. vm_compute. reflexivity.
Defined.

Lemma colour_change_appends_one_fragment_witness :
  let c := new_canvas 3 4 ColorGreen in
  bg c = ColorGreen
  /\ buf c = ""
  /\ buf (SetForeground xterm256 c ColorGreen) = escape ++ "[38;5;2m"
  /\ buf (SetForeground xterm256 c ColorDefault) = escape ++ "[39m"
  /\ buf (SetBackground xterm256 c ColorRed) = escape ++ "[48;5;1m"
  /\ fg (SetBackground xterm256 c ColorRed) = fg c.
Proof.
  destruct (colour_change_appends_one_fragment xterm256
              (new_canvas 3 4 ColorGreen) ColorGreen) as (HG & _).
  destruct (colour_change_appends_one_fragment xterm256
              (new_canvas 3 4 ColorGreen) ColorDefault) as (HD & _).
  destruct (colour_change_appends_one_fragment xterm256
              (new_canvas 3 4 ColorGreen) ColorRed) as (_ & HR & _).
  destruct (HG ltac:(by_evaluation)) as (_ & HGb & _).
  destruct (HD ltac:(by_evaluation)) as (_ & HDb & _).
  destruct (HR ltac:(by_evaluation)) as (_ & HRb & _ & HRf & _).
  cbv zeta. split; [by_evaluation|]. split; [by_evaluation|].
  split; [rewrite HGb; vm_compute; reflexivity|].
  split; [rewrite HDb; vm_compute; reflexivity|].
  split; [rewrite HRb; vm_compute; reflexivity | exact HRf].
Defined.

Lemma SetStyle_appends_codes_in_order_witness :
  let c := new_canvas 3 4 ColorGreen in
  buf c = ""
  /\ SetStyle c (Z.lor StyleBold StyleDim)
     = set_style (WriteString c (escape ++ "[1m" ++ escape ++ "[2m"))
                 (Z.lor StyleBold StyleDim)
  /\ buf (SetStyle c (Z.lor StyleBold StyleDim))
     = escape ++ "[1m" ++ escape ++ "[2m"
  /\ buf (SetStyle c (Z.lor StyleHidden StyleNormal))
     = escape ++ "[0m" ++ escape ++ "[8m"
  /\ style (SetStyle c (Z.lor StyleHidden StyleNormal)) = 130.
Proof.
  destruct (SetStyle_appends_codes_in_order (new_canvas 3 4 ColorGreen)
              (Z.lor StyleBold StyleDim) ltac:(by_evaluation))
    as (H & _ & _ & Hb & _).
  destruct (SetStyle_appends_codes_in_order (new_canvas 3 4 ColorGreen)
              (Z.lor StyleHidden StyleNormal) ltac:(by_evaluation))
    as (_ & _ & _ & Hb' & Hs' & _).
  cbv zeta. split; [by_evaluation|].
  split; [vm_compute in H; vm_compute; exact H|].
  split; [rewrite Hb; vm_compute; reflexivity|].
  split; [rewrite Hb'; vm_compute; reflexivity|].
  rewrite Hs'. vm_compute. reflexivity.
Defined.

Lemma WriteAt_appends_in_order_witness :
  let c := new_canvas 10 5 ColorDefault in
  buf c = ""
  /\ exists c',
       WriteAt xterm256 c 2 1 ColorRed ColorDefault StyleHidden "." = Some c'
       /\ buf c' = escape ++ "[2C" ++ escape ++ "[1B" ++ escape ++ "[8m"
                   ++ escape ++ "[38;5;1m" ++ "."
       /\ (x c', y c') = (3, 1)
       /\ (fg c', bg c', style c') = (ColorRed, ColorDefault, StyleHidden).
Proof.
  pose proof (WriteAt_appends_in_order xterm256
                (new_canvas 10 5 ColorDefault)
                2 1 ColorRed ColorDefault StyleHidden "."
                ltac:(by_evaluation) ltac:(by_evaluation)
                ltac:(by_evaluation)) as H.
  cbv zeta in H.
  destruct H as (_ & (c' & HW & Hb & Hx & Hy & Hf & Hg & Hs)).
  cbv zeta. split; [by_evaluation|].
  exists c'. split; [exact HW|].
  split; [rewrite Hb; vm_compute; reflexivity|].
  split; [rewrite Hx, Hy; vm_compute; reflexivity|].
  rewrite Hf, Hg, Hs. reflexivity.
Defined.

Lemma Clear_rewrites_every_cell_witness :
  let c := fst (Move (new_canvas 2 2 ColorDefault) 1 1) in
  buf c = escape ++ "[1C" ++ escape ++ "[1B"
  /\ exists c',
       Clear c = Some c'
       /\ buf c' = buf c
                   ++ escape ++ "[1D" ++ escape ++ "[1A"
                   ++ "  " ++ escape ++ "[1D" ++ escape ++ "[1D"
                   ++ escape ++ "[1B"
                   ++ "  " ++ escape ++ "[1D"
                   ++ escape ++ "[1D" ++ escape ++ "[1A"
       /\ (x c', y c') = (0, 0).
Proof.
  destruct (Clear_rewrites_every_cell
              (fst (Move (new_canvas 2 2 ColorDefault) 1 1))
              ltac:(by_evaluation) ltac:(by_evaluation))
    as (_ & (c' & HC & Hb & Hxy & _) & _).
  cbv zeta. split; [by_evaluation|].
  exists c'. split; [exact HC|].
  split; [rewrite Hb; vm_compute; reflexivity | exact Hxy].
Defined.

Lemma NewCanvas_prints_prefill_witness :
  stdout (new_canvas 3 2 ColorGreen)
  = [ escape ++ "[48;5;2m" ++ escape ++ "[0m" ++ "   "
      ++ escape ++ "[49m" ++ newline ++ escape ++ "[48;5;2m" ++ "   "
      ++ escape ++ "[3D" ++ escape ++ "[1A" ]
  /\ stdout (new_canvas 3 2 ColorBlack)
     = [ escape ++ "[0m" ++ "   "
         ++ escape ++ "[49m" ++ newline ++ escape ++ "[48;5;0m" ++ "   "
         ++ escape ++ "[3D" ++ escape ++ "[1A" ].
Proof.
  destruct (NewCanvas_prints_prefill xterm256 Printf_plain 3 2 ColorGreen
              ltac:(by_evaluation) ltac:(by_evaluation)) as [HG _].
  destruct (NewCanvas_prints_prefill xterm256 Printf_plain 3 2 ColorBlack
              ltac:(by_evaluation) ltac:(by_evaluation)) as [HB _].
  split.
  - rewrite HG. vm_compute. reflexivity.
  - rewrite HB. vm_compute. reflexivity.
Defined.

Lemma Flush_writes_pending_text_witness :
  let c := set_CursorOnEnd (new_canvas 3 2 ColorDefault) true in
  exists c1,
    Write c "ab" = Some c1
    /\ stdout (Flush Printf_plain c1)
       = List.app (stdout c1) ["ab" ++ escape ++ "[1B"]
    /\ (x (Flush Printf_plain c1), y (Flush Printf_plain c1)) = (2, 1).
Proof.
  eexists. split; [vm_compute; reflexivity|].
  match goal with |- context [Flush Printf_plain ?c1] =>
    assert (H := Flush_writes_pending_text Printf_plain c1
                   Printf_plain_verbatim ltac:(by_evaluation)
                   ltac:(by_evaluation) ltac:(by_evaluation))
  end.
  cbv zeta in H. rewrite H. vm_compute. split; reflexivity.
Defined.

Lemma Write_reports_truncation_witness :
  let c := set_Logger (fst (Move (new_canvas 3 4 ColorGreen) 1 1))
                      (Some []) in
  exists c',
    Write c "ello" = Some c'
    /\ buf c' = buf c ++ "el" ++ escape ++ "[1D"
    /\ Logger c' = Some ["[error] string truncated: ello"].
Proof.
  pose proof (Write_reports_truncation
                (set_Logger (fst (Move (new_canvas 3 4 ColorGreen) 1 1))
                            (Some []))
                "ello" ltac:(by_evaluation) ltac:(by_evaluation)
                ltac:(by_evaluation)) as H.
  cbv zeta in H. destruct H as (c' & HW & Hb & _ & HL & _).
  exists c'. split; [exact HW|].
  split; [rewrite Hb; vm_compute; reflexivity | exact HL].
Defined.
